(** * Lowering of Fortran statements to runtime calls

    A shallow embedding of [flang/lib/Lower/Runtime.cpp]: the drivers that
    lower STOP / ERROR STOP, PAUSE, ASSOCIATED, RANDOM_INIT, RANDOM_NUMBER
    and RANDOM_SEED to calls of the Fortran runtime library.

    The builder is modelled as an explicit state (the region under
    construction with its insertion point); the drivers live in a state and
    failure monad whose failures keep the builder as it was when the
    compiler stopped. *)

From Stdlib Require Import String ZArith Bool Lia List.
From ExtLib Require Import Structures.Monad.
Import ListNotations.
Import MonadNotation.
Local Open Scope monad_scope.
Local Open Scope Z_scope.

(** ** Types, runtime entries and values *)

(** [mlir::Type], restricted to the representations that occur in the
    signatures of the runtime entries used here; [OtherTy] stands for any
    other type a front-end value may have. *)
Inductive Ty : Type :=
| IntegerTy (width : nat)
| RefCharTy
| BoxNoneTy
| OtherTy (id : nat).

Record FunctionType : Type := mkFunctionType {
  getInputs : list Ty;
  getResults : list Ty
}.

(** The keys built by [mkRTKey(...)] in the source. *)
Inductive RTKey : Type :=
| StopStatement
| StopStatementText
| PauseStatement
| PointerIsAssociatedWith
| RandomInit
| RandomNumber
| RandomSeedDefaultPut
| RandomSeedSize
| RandomSeedPut
| RandomSeedGet.

(** [mlir::FuncOp]: the symbol of a runtime entry and its type. *)
Record FuncOp : Type := mkFuncOp {
  getSymbol : RTKey;
  getType : FunctionType
}.

(** [mlir::Location]: a file and a line. *)
Record Location : Type := mkLocation {
  locFile : string;
  locLine : Z
}.

(** [mlir::Value], as the term that defines it. *)
#[warnings="-register-all"]
Inductive Value : Type :=
| ConstantResult (ty : Ty) (cst : Z)
| ConvertResult (ty : Ty) (val : Value)
| StringLitAddr (text : string)
| CallResult (ty : Ty) (callee : RTKey) (operands : list Value) (index : nat)
| FrontEndValue (ty : Ty) (id : nat).

Definition typeOf (v : Value) : Ty :=
  match v with
  | ConstantResult ty _ => ty
  | ConvertResult ty _ => ty
  | StringLitAddr _ => RefCharTy
  | CallResult ty _ _ _ => ty
  | FrontEndValue ty _ => ty
  end.

(** Operations that can end up in a block. [ForeignOp] is an operation
    created by a collaborator (expression evaluation, statement clean-up). *)
Inductive Op : Type :=
| ConstantOp (loc : Location) (ty : Ty) (cst : Z)
| ConvertOp (loc : Location) (ty : Ty) (val : Value)
| AddressOfOp (loc : Location) (text : string)
| CallOp (loc : Location) (callee : FuncOp) (operands : list Value)
| UnreachableOp (loc : Location)
| ForeignOp (id : nat).

Definition Block : Type := list Op.

(** ** The builder

    [fir::FirOpBuilder], reduced to the region being filled and the
    insertion point: the blocks before the current one, the operations of
    the current block before and after the insertion point, and the blocks
    after it. *)
Record FirOpBuilder : Type := mkBuilder {
  blocksBefore : list Block;
  opsBefore : list Op;
  opsAfter : list Op;
  blocksAfter : list Block
}.

Definition region (b : FirOpBuilder) : list Block :=
  blocksBefore b ++ (opsBefore b ++ opsAfter b) :: blocksAfter b.

(** The ways a run ends without returning to the caller: the compiler
    stops ([Diagnostic], [FatalError], [AssertionFailure]), or the source
    reads through a null pointer ([NullDereference]), from where on the
    program has no defined behaviour and the model does not follow it. *)
Inductive Failure : Type :=
| Diagnostic (loc : Location) (msg : string)
| FatalError (msg : string)
| AssertionFailure (msg : string)
| NullDereference.

Inductive Outcome (A : Type) : Type :=
| Done (a : A) (b : FirOpBuilder)
| Halted (f : Failure) (b : FirOpBuilder).
Arguments Done {A} a b.
Arguments Halted {A} f b.

Definition Lower (A : Type) : Type := FirOpBuilder -> Outcome A.

#[global] Instance Monad_Lower : Monad Lower := {
  ret := fun A (a : A) => fun b => Done a b;
  bind := fun A B (m : Lower A) (k : A -> Lower B) => fun b =>
    match m b with
    | Done a b' => k a b'
    | Halted f b' => Halted f b'
    end
}.

Definition halt {A : Type} (f : Failure) : Lower A := fun b => Halted f b.

(** Append operations at the insertion point, which stays behind them. *)
Definition emitOps (ops : list Op) (b : FirOpBuilder) : FirOpBuilder :=
  mkBuilder (blocksBefore b) (opsBefore b ++ ops) (opsAfter b) (blocksAfter b).

(** [builder.create<OpTy>(loc, ...)] *)
Definition create (op : Op) : Lower unit :=
  fun b => Done tt (emitOps [op] b).

(** [builder.getBlock()->splitBlock(builder.getInsertionPoint())]: the
    operations from the insertion point on move to a new block placed right
    after the current one; the position of the new block in the region is
    returned. *)
Definition splitBlock : Lower nat :=
  fun b => Done (S (length (blocksBefore b)))
                (mkBuilder (blocksBefore b) (opsBefore b) []
                           (opsAfter b :: blocksAfter b)).

(** [builder.setInsertionPointToStart(block)] *)
Definition setInsertionPointToStart (blk : nat) : Lower unit :=
  fun b =>
    match nth_error (region b) blk with
    | Some ops =>
        Done tt (mkBuilder (firstn blk (region b)) [] ops
                           (skipn (S blk) (region b)))
    | None => Halted (AssertionFailure "no such block"%string) b
    end.

(** [mlir::emitError(loc, msg); std::exit(1);] *)
Definition emitErrorAndExit {A : Type} (loc : Location) (msg : string)
  : Lower A := halt (Diagnostic loc msg).

(** [llvm::report_fatal_error(msg)] *)
Definition report_fatal_error {A : Type} (msg : string) : Lower A :=
  halt (FatalError msg).

(** [calleeType.getInput(i)]: indexing past the formal list trips the
    bounds assertion of the parameter array. *)
Definition getInput (fty : FunctionType) (i : nat) : Lower Ty :=
  match nth_error (getInputs fty) i with
  | Some ty => ret ty
  | None => halt (AssertionFailure "Invalid index!"%string)
  end.

(** Modelled from the spec: [FirOpBuilder::createConvert] is not part of
    the sources at hand. Section 4.3: each actual is converted "to the exact
    representation required by the corresponding formal parameter". The
    conversion is an operation of the current block and its result has the
    requested type. *)
Definition createConvert (loc : Location) (toTy : Ty) (val : Value)
  : Lower Value :=
  create (ConvertOp loc toTy val) ;;
  ret (ConvertResult toTy val).

(** Modelled from the spec: [FirOpBuilder::createIntegerConstant] is not
    part of the sources at hand. Section 4.3: absent operands are
    "materialized as an explicit default actual"; the constant is an
    operation of the current block, of the requested type. *)
Definition createIntegerConstant (loc : Location) (ty : Ty) (cst : Z)
  : Lower Value :=
  create (ConstantOp loc ty cst) ;;
  ret (ConstantResult ty cst).

(** Modelled from the spec: [fir::factory::locationToFilename] and
    [fir::factory::locationToLineNo] are not part of the sources at hand.
    Section 4.3: "two extra ... operands carrying the current source file
    name and line number". *)
Definition locationToFilename (loc : Location) : Lower Value :=
  create (AddressOfOp loc (locFile loc)) ;;
  ret (StringLitAddr (locFile loc)).

Definition locationToLineNo (loc : Location) (ty : Ty) : Lower Value :=
  createIntegerConstant loc ty (locLine loc).

(** Modelled from the spec: [fir::runtime::createArguments] is not part of
    the sources at hand. Section 4.3: "convert each to the exact
    representation required by the corresponding formal parameter"; the
    i-th actual is converted to the i-th formal type, left to right. *)
Fixpoint createArgumentsFrom (loc : Location) (fTy : FunctionType)
    (i : nat) (args : list Value) : Lower (list Value) :=
  match args with
  | [] => ret []
  | a :: rest =>
      ty <- getInput fTy i ;;
      v <- createConvert loc ty a ;;
      vs <- createArgumentsFrom loc fTy (S i) rest ;;
      ret (v :: vs)
  end.

Definition createArguments (loc : Location) (fTy : FunctionType)
    (args : list Value) : Lower (list Value) :=
  createArgumentsFrom loc fTy 0%nat args.

(** Modelled from the spec: the signatures of the runtime entries are
    declared in [flang/Runtime/stop.h], [pointer.h] and [random.h], which
    are not part of the sources at hand. Section 6 gives the fixed
    actual-argument order of each entry: the numeric stop code and the
    source line are integers, the flags are booleans, the text of a stop
    code is a location and a length, the source file is a location, and
    the pointer, target, harvest and seed arguments are descriptors. *)
Definition runtimeSignature (key : RTKey) : FunctionType :=
  match key with
  | StopStatement =>
      mkFunctionType [IntegerTy 32; IntegerTy 1; IntegerTy 1] []
  | StopStatementText =>
      mkFunctionType [RefCharTy; IntegerTy 64; IntegerTy 1; IntegerTy 1] []
  | PauseStatement => mkFunctionType [] []
  | PointerIsAssociatedWith =>
      mkFunctionType [BoxNoneTy; BoxNoneTy] [IntegerTy 1]
  | RandomInit => mkFunctionType [IntegerTy 1; IntegerTy 1] []
  | RandomNumber => mkFunctionType [BoxNoneTy; RefCharTy; IntegerTy 32] []
  | RandomSeedDefaultPut => mkFunctionType [] []
  | RandomSeedSize => mkFunctionType [BoxNoneTy; RefCharTy; IntegerTy 32] []
  | RandomSeedPut => mkFunctionType [BoxNoneTy; RefCharTy; IntegerTy 32] []
  | RandomSeedGet => mkFunctionType [BoxNoneTy; RefCharTy; IntegerTy 32] []
  end.

(** Modelled from the spec: [fir::runtime::getRuntimeFunc] is not part of
    the sources at hand. Section 3: descriptors "are constants of the
    runtime library's published interface ...; this component only looks
    them up by key". *)
Definition getRuntimeFunc (key : RTKey) : FuncOp :=
  mkFuncOp key (runtimeSignature key).

(** [callOp.getResult(i)] *)
Definition getResult (callee : FuncOp) (operands : list Value) (i : nat)
  : Lower Value :=
  match nth_error (getResults (getType callee)) i with
  | Some ty => ret (CallResult ty (getSymbol callee) operands i)
  | None => halt (AssertionFailure "result index out of range"%string)
  end.

(** ** The front end *)

(** [Fortran::lower::SomeExpr]: a typed expression, known by its node. *)
Record SomeExpr : Type := mkSomeExpr { exprNode : nat }.

(** [parser::Expr]: [typedExpr] is filled in by semantic analysis and read
    by [Fortran::semantics::GetExpr]. *)
Record Expr : Type := mkExpr { typedExpr : option SomeExpr }.

Definition StopCode : Type := Expr.
Definition ScalarLogicalExpr : Type := Expr.
Definition GetExpr (x : Expr) : option SomeExpr := typedExpr x.

(** [parser::StopStmt::Kind] *)
Inductive Kind : Type := Stop | ErrorStop.

Definition Kind_eqb (a b : Kind) : bool :=
  match a, b with
  | Stop, Stop | ErrorStop, ErrorStop => true
  | _, _ => false
  end.

(** [parser::StopStmt]: the tuple [t] of kind, optional stop code and
    optional quiet expression. *)
Record StopStmt : Type := mkStopStmt {
  stmtKind : Kind;
  stmtCode : option StopCode;
  stmtQuiet : option ScalarLogicalExpr
}.

(** [parser::PauseStmt]: the driver does not look at it. *)
Record PauseStmt : Type := mkPauseStmt { pauseCode : option StopCode }.

(** [fir::ExtendedValue]: the variants the STOP driver tells apart, and
    every other variant. *)
Inductive ExtendedValue : Type :=
| CharBoxValue (addr len : Value)
| UnboxedValue (x : Value)
| OtherBoxValue (base : Value).

(** [fir::getBase] *)
Definition getBase (ev : ExtendedValue) : Value :=
  match ev with
  | CharBoxValue addr _ => addr
  | UnboxedValue x => x
  | OtherBoxValue base => base
  end.

(** [Fortran::lower::StatementContext]: the clean-up operations registered
    while the operands of a statement are evaluated; they are emitted when
    the context goes out of scope. *)
Definition StatementContext : Type := list Op.

Definition finalize (stmtCtx : StatementContext) : Lower unit :=
  fun b => Done tt (emitOps stmtCtx b).

(** [Fortran::lower::AbstractConverter]: the current location and the
    expression evaluator, which may change the builder and the statement
    context in any way. *)
Record AbstractConverter : Type := mkConverter {
  getCurrentLocation : Location;
  genExprValue :
    SomeExpr -> StatementContext -> FirOpBuilder ->
    ExtendedValue * StatementContext * FirOpBuilder
}.

(** Run the evaluator of the converter inside the monad. *)
Definition evalExpr (converter : AbstractConverter) (e : SomeExpr)
    (stmtCtx : StatementContext)
  : Lower (ExtendedValue * StatementContext) :=
  fun b =>
    match genExprValue converter e stmtCtx b with
    | (ev, stmtCtx', b') => Done (ev, stmtCtx') b'
    end.

(** ** The drivers *)

(** Runtime calls that do not return to the caller indicate this condition
    by terminating the current basic block with an unreachable op. *)
Definition genUnreachable (loc : Location) : Lower unit :=
  create (UnreachableOp loc) ;;
  newBlock <- splitBlock ;;
  setInsertionPointToStart newBlock.

(** [assert(p && msg)], with assertions enabled. *)
Definition nonNull {A : Type} (p : option A) (msg : string) : Lower A :=
  match p with
  | Some a => ret a
  | None => halt (AssertionFailure msg)
  end.

(** [*p], which the source writes without a check: on a null pointer the
    behaviour is undefined, and the run is left at [NullDereference]. *)
Definition deref {A : Type} (p : option A) : Lower A :=
  match p with
  | Some a => ret a
  | None => halt NullDereference
  end.

Definition genStopStatement (converter : AbstractConverter) (stmt : StopStmt)
  : Lower unit :=
  let loc := getCurrentLocation converter in
  let stmtCtx : StatementContext := [] in
  (* First operand is stop code (zero if absent) *)
  '(callee, operands, stmtCtx) <-
    match stmtCode stmt with
    | Some code =>
        e <- deref (GetExpr code) ;;
        '(expr, stmtCtx) <- evalExpr converter e stmtCtx ;;
        match expr with
        | CharBoxValue addr len =>
            let callee := getRuntimeFunc StopStatementText in
            let calleeType := getType callee in
            (* Creates a pair of operands for the CHARACTER and its LEN. *)
            ty0 <- getInput calleeType 0 ;;
            a <- createConvert loc ty0 addr ;;
            ty1 <- getInput calleeType 1 ;;
            l <- createConvert loc ty1 len ;;
            ret (callee, [a; l], stmtCtx)
        | UnboxedValue x =>
            let callee := getRuntimeFunc StopStatement in
            let calleeType := getType callee in
            ty0 <- getInput calleeType 0 ;;
            cast <- createConvert loc ty0 x ;;
            ret (callee, [cast], stmtCtx)
        | OtherBoxValue _ =>
            emitErrorAndExit loc "unhandled expression in STOP"%string
        end
    | None =>
        let callee := getRuntimeFunc StopStatement in
        let calleeType := getType callee in
        ty0 <- getInput calleeType 0 ;;
        zero <- createIntegerConstant loc ty0 0 ;;
        ret (callee, [zero], stmtCtx)
    end ;;
  let calleeType := getType callee in
  (* Second operand indicates ERROR STOP *)
  let isError := Kind_eqb (stmtKind stmt) ErrorStop in
  ty <- getInput calleeType (length operands) ;;
  flag <- createIntegerConstant loc ty (Z.b2z isError) ;;
  let operands := operands ++ [flag] in
  (* Third operand indicates QUIET (default to false). *)
  '(operands, stmtCtx) <-
    match stmtQuiet stmt with
    | Some quiet =>
        expr <- nonNull (GetExpr quiet) "failed getting typed expression"%string ;;
        '(ev, stmtCtx) <- evalExpr converter expr stmtCtx ;;
        let q := getBase ev in
        ty <- getInput calleeType (length operands) ;;
        c <- createConvert loc ty q ;;
        ret (operands ++ [c], stmtCtx)
    | None =>
        ty <- getInput calleeType (length operands) ;;
        c <- createIntegerConstant loc ty 0 ;;
        ret (operands ++ [c], stmtCtx)
    end ;;
  create (CallOp loc callee operands) ;;
  genUnreachable loc ;;
  (* end of scope of stmtCtx *)
  finalize stmtCtx.

Definition genPauseStatement (converter : AbstractConverter)
    (stmt : PauseStmt) : Lower unit :=
  let loc := getCurrentLocation converter in
  let callee := getRuntimeFunc PauseStatement in
  create (CallOp loc callee []).

Definition genAssociated (loc : Location) (pointer target : Value)
  : Lower Value :=
  let func := getRuntimeFunc PointerIsAssociatedWith in
  args <- createArguments loc (getType func) [pointer; target] ;;
  create (CallOp loc func args) ;;
  getResult func args 0.

Definition genRandomInit (loc : Location) (repeatable imageDistinct : Value)
  : Lower unit :=
  let func := getRuntimeFunc RandomInit in
  args <- createArguments loc (getType func) [repeatable; imageDistinct] ;;
  create (CallOp loc func args).

Definition genRandomNumber (loc : Location) (harvest : Value) : Lower unit :=
  let func := getRuntimeFunc RandomNumber in
  let funcTy := getType func in
  sourceFile <- locationToFilename loc ;;
  lineTy <- getInput funcTy 2 ;;
  sourceLine <- locationToLineNo loc lineTy ;;
  args <- createArguments loc funcTy [harvest; sourceFile; sourceLine] ;;
  create (CallOp loc func args).

(** [argIndex] is the nth (0-origin) argument in declaration order, or -1
    if no argument is present. The [switch] either returns after its own
    call ([None]) or leaves the selected entry for the common tail. *)
Definition genRandomSeed (loc : Location) (argIndex : Z) (argBox : Value)
  : Lower unit :=
  selected <-
    match argIndex with
    | -1 =>
        let func := getRuntimeFunc RandomSeedDefaultPut in
        create (CallOp loc func []) ;;
        ret None
    | 0 => ret (Some (getRuntimeFunc RandomSeedSize))
    | 1 => ret (Some (getRuntimeFunc RandomSeedPut))
    | 2 => ret (Some (getRuntimeFunc RandomSeedGet))
    | _ => report_fatal_error "invalid RANDOM_SEED argument index"%string
    end ;;
  match selected with
  | None => ret tt
  | Some func =>
      let funcTy := getType func in
      sourceFile <- locationToFilename loc ;;
      lineTy <- getInput funcTy 2 ;;
      sourceLine <- locationToLineNo loc lineTy ;;
      args <- createArguments loc funcTy [argBox; sourceFile; sourceLine] ;;
      create (CallOp loc func args)
  end.

(** ** Observations on the builder *)

(** The operation in front of the terminator that closes the block before
    the current one: the call of a statement that does not return. *)
Definition noreturnCall (b : FirOpBuilder) : option Op :=
  match rev (blocksBefore b) with
  | blk :: _ =>
      match rev blk with
      | UnreachableOp _ :: op :: _ => Some op
      | _ => None
      end
  | [] => None
  end.

(** The callee and the representation of each actual of a call. *)
Definition callShape (op : Op) : option (RTKey * list Ty) :=
  match op with
  | CallOp _ callee operands => Some (getSymbol callee, map typeOf operands)
  | _ => None
  end.

Definition isUnreachable (op : Op) : bool :=
  match op with
  | UnreachableOp _ => true
  | _ => false
  end.

Definition isCall (op : Op) : bool :=
  match op with
  | CallOp _ _ _ => true
  | _ => false
  end.

(** The classification of an evaluated operand (section 4.1). *)
Inductive Variant : Type := Textual | Scalar | Unsupported.

Definition classify (ev : ExtendedValue) : Variant :=
  match ev with
  | CharBoxValue _ _ => Textual
  | UnboxedValue _ => Scalar
  | OtherBoxValue _ => Unsupported
  end.

(** ** A sample front end

    An evaluator that knows four expressions: an integer, a character
    string held in a temporary that is released at the end of the
    statement, a logical, and an array section, which no STOP accepts. *)
Definition sampleLoc : Location := mkLocation "stop.f90"%string 7.

Definition sampleEval (e : SomeExpr) (stmtCtx : StatementContext)
    (b : FirOpBuilder) : ExtendedValue * StatementContext * FirOpBuilder :=
  match exprNode e with
  | O => (UnboxedValue (ConstantResult (IntegerTy 32) 5), stmtCtx,
          emitOps [ConstantOp sampleLoc (IntegerTy 32) 5] b)
  | S O => (CharBoxValue (FrontEndValue (OtherTy 0) 10)
                         (ConstantResult (IntegerTy 64) 9),
            stmtCtx ++ [ForeignOp 11],
            emitOps [ForeignOp 10; ConstantOp sampleLoc (IntegerTy 64) 9] b)
  | S (S O) => (UnboxedValue (ConstantResult (OtherTy 4) 1), stmtCtx,
                emitOps [ConstantOp sampleLoc (OtherTy 4) 1] b)
  | _ => (OtherBoxValue (FrontEndValue (OtherTy 1) 20), stmtCtx,
          emitOps [ForeignOp 20] b)
  end.

Definition sampleConverter : AbstractConverter :=
  mkConverter sampleLoc sampleEval.

Definition emptyBuilder : FirOpBuilder := mkBuilder [] [] [] [].

Definition typed (n : nat) : Expr := mkExpr (Some (mkSomeExpr n)).

(** What the evaluator of the converter yields for an expression. *)
Definition evaluated (converter : AbstractConverter) (e : SomeExpr)
    (stmtCtx : StatementContext) (b : FirOpBuilder) : ExtendedValue :=
  fst (fst (genExprValue converter e stmtCtx b)).

(** The builder a terminated statement leaves behind: the block that was
    current ends with the call and the terminator, and the insertion point
    is in the block that follows, behind the clean-up of the statement. *)
Definition terminatedWith (call : Op) (loc : Location)
    (stmtCtx : StatementContext) (b : FirOpBuilder) : FirOpBuilder :=
  mkBuilder (blocksBefore b ++ [opsBefore b ++ [call; UnreachableOp loc]])
            stmtCtx (opsAfter b) (blocksAfter b).

(** The operands that carry the source position of a call. *)
Definition sourceFileValue (loc : Location) : Value :=
  StringLitAddr (locFile loc).

Definition sourceLineValue (loc : Location) (ty : Ty) : Value :=
  ConstantResult ty (locLine loc).

(** An actual is in the representation of a formal parameter when it is
    the result of a conversion to the formal type, or a constant created
    in the formal type. *)
Definition marshaledTo (v : Value) (ty : Ty) : Prop :=
  typeOf v = ty /\
  ((exists x, v = ConvertResult ty x) \/ (exists c, v = ConstantResult ty c)).

(** A call whose actuals match the formal parameters of its callee one by
    one. *)
Definition wellFormedCall (op : Op) : Prop :=
  match op with
  | CallOp _ callee operands =>
      length operands = length (getInputs (getType callee)) /\
      Forall2 marshaledTo operands (getInputs (getType callee))
  | _ => False
  end.

(** The operands of a statement are usable: the stop code, when written,
    has a typed expression that evaluates to a supported variant, and the
    quiet expression, when written, has a typed expression. *)
Definition lowerable (conv : AbstractConverter) (stmt : StopStmt)
    (b : FirOpBuilder) : Prop :=
  match stmtCode stmt with
  | None => True
  | Some code =>
      exists e, GetExpr code = Some e /\
                classify (evaluated conv e [] b) <> Unsupported
  end /\
  match stmtQuiet stmt with
  | None => True
  | Some quiet => GetExpr quiet <> None
  end.

(** The actuals of an entry that takes a descriptor and the source
    position, and the operations that produce them. *)
Definition positionedActuals (loc : Location) (x : Value) : list Value :=
  [ConvertResult BoxNoneTy x;
   ConvertResult RefCharTy (sourceFileValue loc);
   ConvertResult (IntegerTy 32) (sourceLineValue loc (IntegerTy 32))].

Definition positionedOps (loc : Location) (x : Value) : list Op :=
  [AddressOfOp loc (locFile loc);
   ConstantOp loc (IntegerTy 32) (locLine loc);
   ConvertOp loc BoxNoneTy x;
   ConvertOp loc RefCharTy (sourceFileValue loc);
   ConvertOp loc (IntegerTy 32) (sourceLineValue loc (IntegerTy 32))].

(** An operation produces a value. *)
Definition defines (op : Op) (v : Value) : Prop :=
  match op with
  | ConstantOp _ ty cst => v = ConstantResult ty cst
  | ConvertOp _ ty val => v = ConvertResult ty val
  | _ => False
  end.

(** Every actual of a call is produced by one of the operations [pre]. *)
Definition actualsDefinedIn (pre : list Op) (call : Op) : Prop :=
  match call with
  | CallOp _ _ operands =>
      Forall (fun v => Exists (fun op => defines op v) pre) operands
  | _ => False
  end.

(** A driver went from [b] to [bf] by adding operations at the insertion
    point, none of them a terminator: the current block stays open and no
    block is added. *)
Definition addsNoTerminator (b bf : FirOpBuilder) : Prop :=
  exists ops, bf = emitOps ops b /\ existsb isUnreachable ops = false.

(** The operation right in front of the insertion point. *)
Definition lastEmitted (b : FirOpBuilder) : option Op :=
  match rev (opsBefore b) with
  | op :: _ => Some op
  | [] => None
  end.

(** Two builders hold, at the given observation, calls of the same entry
    with actuals of the same representations. *)
Definition sameCallSite (observe : FirOpBuilder -> option Op)
    (bf1 bf2 : FirOpBuilder) : Prop :=
  exists call1 call2 shape,
    observe bf1 = Some call1 /\ observe bf2 = Some call2 /\
    callShape call1 = Some shape /\ callShape call2 = Some shape.

(** The same front end at another source location. *)
Definition relocated (loc : Location) (conv : AbstractConverter)
  : AbstractConverter :=
  mkConverter loc (genExprValue conv).

Definition otherLoc : Location := mkLocation "main.f90"%string 42.

(** The builder an outcome leaves behind. *)
Definition builderOf {A : Type} (o : Outcome A) : FirOpBuilder :=
  match o with
  | Done _ b => b
  | Halted _ b => b
  end.

(** The operations a driver adds are: any number of operations that are
    not calls, and then one call. *)
Definition endsWithItsOnlyCall (ops : list Op) : Prop :=
  exists pre call,
    ops = pre ++ [call] /\ isCall call = true /\
    existsb isCall pre = false.

(** An actual that is the result of a conversion. *)
Definition isConversion (v : Value) : bool :=
  match v with
  | ConvertResult _ _ => true
  | _ => false
  end.

(** A driver went from [b] to [bf] by adding, at the insertion point,
    operations that are not calls and that produce the actuals, and then
    one well-formed call: the only call it adds. *)
Definition onlyCallMarshaled (b bf : FirOpBuilder) : Prop :=
  exists pre call,
    bf = emitOps (pre ++ [call]) b /\
    existsb isCall pre = false /\
    wellFormedCall call /\ actualsDefinedIn pre call.

(** A complete account of a lowered STOP statement, in terms of what the
    evaluator of the converter returns: the driver adds [own1] and the
    isError constant behind the evaluation of the stop code, [own2] behind
    the evaluation of the quiet expression, then [call] and the
    terminator, and nothing else. None of [own1], the constant and [own2]
    is a call, and together they produce every actual of [call]. *)
Definition stopLowering (conv : AbstractConverter) (stmt : StopStmt)
    (b : FirOpBuilder) (call : Op) (bf : FirOpBuilder) : Prop :=
  let loc := getCurrentLocation conv in
  let isError := Z.b2z (Kind_eqb (stmtKind stmt) ErrorStop) in
  let flagOp := ConstantOp loc (IntegerTy 1) isError in
  exists callee codeActuals own1 ctx1 b1 isQuiet own2 ctx2 b2,
    match stmtCode stmt with
    | None =>
        callee = getRuntimeFunc StopStatement /\
        codeActuals = [ConstantResult (IntegerTy 32) 0] /\
        own1 = [ConstantOp loc (IntegerTy 32) 0] /\
        ctx1 = [] /\ b1 = b
    | Some code =>
        exists e, GetExpr code = Some e /\
        match genExprValue conv e [] b with
        | (CharBoxValue addr len, ctx, b') =>
            callee = getRuntimeFunc StopStatementText /\
            codeActuals = [ConvertResult RefCharTy addr;
                           ConvertResult (IntegerTy 64) len] /\
            own1 = [ConvertOp loc RefCharTy addr;
                    ConvertOp loc (IntegerTy 64) len] /\
            ctx1 = ctx /\ b1 = b'
        | (UnboxedValue x, ctx, b') =>
            callee = getRuntimeFunc StopStatement /\
            codeActuals = [ConvertResult (IntegerTy 32) x] /\
            own1 = [ConvertOp loc (IntegerTy 32) x] /\
            ctx1 = ctx /\ b1 = b'
        | (OtherBoxValue _, _, _) => False
        end
    end /\
    match stmtQuiet stmt with
    | None =>
        isQuiet = ConstantResult (IntegerTy 1) 0 /\
        own2 = [ConstantOp loc (IntegerTy 1) 0] /\
        ctx2 = ctx1 /\ b2 = emitOps (own1 ++ [flagOp]) b1
    | Some quiet =>
        exists qe, GetExpr quiet = Some qe /\
        match genExprValue conv qe ctx1 (emitOps (own1 ++ [flagOp]) b1) with
        | (qv, ctx, b') =>
            isQuiet = ConvertResult (IntegerTy 1) (getBase qv) /\
            own2 = [ConvertOp loc (IntegerTy 1) (getBase qv)] /\
            ctx2 = ctx /\ b2 = b'
        end
    end /\
    call = CallOp loc callee
             (codeActuals ++
              [ConstantResult (IntegerTy 1) isError; isQuiet]) /\
    bf = terminatedWith call loc ctx2 (emitOps own2 b2) /\
    existsb isCall (own1 ++ [flagOp] ++ own2) = false /\
    actualsDefinedIn (own1 ++ [flagOp] ++ own2) call.

(** What the STOP driver adds for a statement with a stop code of variant
    [ev] and no quiet expression: the conversions of the code and the two
    flag constants, and the call. *)
Definition codeEntry (ev : ExtendedValue) : RTKey :=
  match ev with
  | CharBoxValue _ _ => StopStatementText
  | _ => StopStatement
  end.

Definition codeActuals (ev : ExtendedValue) : list Value :=
  match ev with
  | CharBoxValue addr len =>
      [ConvertResult RefCharTy addr; ConvertResult (IntegerTy 64) len]
  | UnboxedValue x => [ConvertResult (IntegerTy 32) x]
  | OtherBoxValue _ => []
  end.

Definition codeOps (loc : Location) (ev : ExtendedValue) : list Op :=
  match ev with
  | CharBoxValue addr len =>
      [ConvertOp loc RefCharTy addr; ConvertOp loc (IntegerTy 64) len]
  | UnboxedValue x => [ConvertOp loc (IntegerTy 32) x]
  | OtherBoxValue _ => []
  end.

Definition stopOps (loc : Location) (k : Kind) (ev : ExtendedValue)
  : list Op :=
  codeOps loc ev ++
  [ConstantOp loc (IntegerTy 1) (Z.b2z (Kind_eqb k ErrorStop));
   ConstantOp loc (IntegerTy 1) 0].

Definition stopCall (loc : Location) (k : Kind) (ev : ExtendedValue) : Op :=
  CallOp loc (getRuntimeFunc (codeEntry ev))
    (codeActuals ev ++
     [ConstantResult (IntegerTy 1) (Z.b2z (Kind_eqb k ErrorStop));
      ConstantResult (IntegerTy 1) 0]).

(** * Properties *)

(** ** The builder and the terminator handler *)

Lemma nth_error_after {A : Type} (l : list A) (x y : A) (r : list A) :
  nth_error (l ++ x :: y :: r) (S (length l)) = Some y.
Proof.
  induction l as [|a l IH]; simpl; [reflexivity | exact IH].
Qed.

Lemma firstn_after {A : Type} (l : list A) (x : A) (r : list A) :
  firstn (S (length l)) (l ++ x :: r) = l ++ [x].
Proof.
  induction l as [|a l IH]; simpl.
  - destruct r; reflexivity.
  - f_equal. exact IH.
Qed.

Lemma skipn_after {A : Type} (l : list A) (x y : A) (r : list A) :
  skipn (S (S (length l))) (l ++ x :: y :: r) = r.
Proof.
  induction l as [|a l IH]; simpl; [reflexivity | exact IH].
Qed.

Lemma setInsertionPointToStart_next (before : list Block)
    (ops next : list Op) (after : list Block) :
  setInsertionPointToStart (S (length before))
    (mkBuilder before ops [] (next :: after)) =
  Done tt (mkBuilder (before ++ [ops]) [] next after).
Proof.
  unfold setInsertionPointToStart, region.
  cbn [blocksBefore opsBefore opsAfter blocksAfter].
  rewrite nth_error_after, firstn_after, skipn_after, app_nil_r.
  reflexivity.
Qed.

Lemma genUnreachable_run (loc : Location) (b : FirOpBuilder) :
  genUnreachable loc b =
  Done tt (mkBuilder (blocksBefore b ++ [opsBefore b ++ [UnreachableOp loc]])
                     [] (opsAfter b) (blocksAfter b)).
Proof.
  unfold genUnreachable.
  cbv beta iota delta [bind Monad_Lower create splitBlock].
  cbn [emitOps blocksBefore opsBefore opsAfter blocksAfter].
  apply setInsertionPointToStart_next.
Qed.

Lemma stop_tail_run (loc : Location) (callee : FuncOp)
    (operands : list Value) (stmtCtx : StatementContext)
    (b : FirOpBuilder) :
  (create (CallOp loc callee operands) ;;
   genUnreachable loc ;;
   finalize stmtCtx) b =
  Done tt (terminatedWith (CallOp loc callee operands) loc stmtCtx b).
Proof.
  cbv beta iota delta [bind Monad_Lower create].
  rewrite genUnreachable_run.
  unfold finalize, emitOps, terminatedWith.
  cbn [blocksBefore opsBefore opsAfter blocksAfter app].
  rewrite <- app_assoc. reflexivity.
Qed.

Lemma noreturnCall_terminatedWith (call : Op) (loc : Location)
    (stmtCtx : StatementContext) (b : FirOpBuilder) :
  noreturnCall (terminatedWith call loc stmtCtx b) = Some call.
Proof.
  unfold noreturnCall, terminatedWith. cbn.
  rewrite rev_app_distr. cbn.
  rewrite rev_app_distr. reflexivity.
Qed.

Arguments genUnreachable : simpl never.

(** ** The STOP driver, run by run *)

Lemma terminated_shape (before : list Block) (pre : list Op) (call : Op)
    (loc : Location) (stmtCtx : StatementContext) (rest : list Op)
    (after : list Block) :
  emitOps stmtCtx
    (mkBuilder (before ++ [(pre ++ [call]) ++ [UnreachableOp loc]])
               [] rest after) =
  terminatedWith call loc stmtCtx (mkBuilder before pre rest after).
Proof.
  unfold emitOps, terminatedWith.
  cbn [blocksBefore opsBefore opsAfter blocksAfter app].
  rewrite <- app_assoc. reflexivity.
Qed.

(** The call of a completed lowering: the entry and the actuals for the
    stop code follow the classification of the code, and both flags are
    behind them. *)
Lemma genStopStatement_Done (conv : AbstractConverter) (stmt : StopStmt)
    (b bf : FirOpBuilder) :
  genStopStatement conv stmt b = Done tt bf ->
  exists callee codeActuals isQuiet stmtCtx b2,
    match stmtCode stmt with
    | None =>
        callee = getRuntimeFunc StopStatement /\
        codeActuals = [ConstantResult (IntegerTy 32) 0]
    | Some code =>
        exists e, GetExpr code = Some e /\
        match evaluated conv e [] b with
        | CharBoxValue addr len =>
            callee = getRuntimeFunc StopStatementText /\
            codeActuals = [ConvertResult RefCharTy addr;
                           ConvertResult (IntegerTy 64) len]
        | UnboxedValue x =>
            callee = getRuntimeFunc StopStatement /\
            codeActuals = [ConvertResult (IntegerTy 32) x]
        | OtherBoxValue _ => False
        end
    end /\
    match stmtQuiet stmt with
    | None => isQuiet = ConstantResult (IntegerTy 1) 0
    | Some quiet =>
        exists e ctx1 b1, GetExpr quiet = Some e /\
        isQuiet = ConvertResult (IntegerTy 1)
                    (getBase (evaluated conv e ctx1 b1))
    end /\
    bf = terminatedWith
           (CallOp (getCurrentLocation conv) callee
              (codeActuals ++
               [ConstantResult (IntegerTy 1)
                  (Z.b2z (Kind_eqb (stmtKind stmt) ErrorStop)); isQuiet]))
           (getCurrentLocation conv) stmtCtx b2.
Proof.
  destruct stmt as [k code quiet].
  unfold genStopStatement, evaluated, evalExpr, GetExpr.
  cbn [stmtKind stmtCode stmtQuiet].
  destruct code as [[[e|]]|]; cbn; try discriminate;
    [destruct (genExprValue conv e [] b) as [[ev ctx] b1] eqn:E1;
     destruct ev as [addr len|x|base]; cbn; try discriminate|];
    (destruct quiet as [[[qe|]]|]; cbn; try discriminate;
     [match goal with
      | |- context [genExprValue conv qe ?c ?s] =>
          destruct (genExprValue conv qe c s) as [[qv qctx] b2] eqn:E2
      end; cbn|]);
    rewrite genUnreachable_run; unfold finalize; intros H;
    injection H as <-;
    (do 5 eexists; (split; [|split]);
    [ first [ split; reflexivity
            | eexists; split; [reflexivity|]; rewrite E1; cbn;
              split; reflexivity ]
    | first [ reflexivity
            | match goal with
              | E : genExprValue conv ?q ?c ?s = _ |- _ =>
                  exists q, c, s; split; [reflexivity|];
                  rewrite E; reflexivity
              end ]
    | apply terminated_shape ]).
Qed.

(** A statement with usable operands is lowered to the end. *)
Lemma genStopStatement_completes (conv : AbstractConverter)
    (stmt : StopStmt) (b : FirOpBuilder) :
  lowerable conv stmt b ->
  exists bf, genStopStatement conv stmt b = Done tt bf.
Proof.
  destruct stmt as [k code quiet].
  unfold lowerable, genStopStatement, evaluated, evalExpr, GetExpr.
  cbn [stmtKind stmtCode stmtQuiet]. intros [Hc Hq].
  assert (Hrun : forall callee operands stmtCtx s,
             exists bf,
               (create (CallOp (getCurrentLocation conv) callee operands) ;;
                genUnreachable (getCurrentLocation conv) ;;
                finalize stmtCtx) s = Done tt bf)
    by (intros; rewrite stop_tail_run; eexists; reflexivity).
  destruct code as [[[e|]]|]; cbn;
    [ destruct Hc as [e' [He Hc]]; injection He as <-;
      destruct (genExprValue conv e [] b) as [[ev ctx] b1] eqn:E1;
      destruct ev as [addr len|x|base]; cbn in Hc |- *;
      [ | | congruence ]
    | destruct Hc as [e' [He _]]; discriminate
    | ];
    (destruct quiet as [[[qe|]]|]; cbn;
     [ match goal with
       | |- context [genExprValue conv qe ?c ?s] =>
           destruct (genExprValue conv qe c s) as [[qv qctx] b2] eqn:E2
       end; cbn
     | exfalso; apply Hq; reflexivity
     | ]);
    apply Hrun.
Qed.

(** The only ways a run of the STOP driver ends early: a null typed
    expression, or a stop code of an unsupported variant, which is reported
    at the location of the statement with the builder as the evaluator
    left it. *)
Lemma genStopStatement_Halted (conv : AbstractConverter) (stmt : StopStmt)
    (b b' : FirOpBuilder) (f : Failure) :
  genStopStatement conv stmt b = Halted f b' ->
  (f = NullDereference \/ exists msg, f = AssertionFailure msg) \/
  (exists code e base,
      stmtCode stmt = Some code /\ GetExpr code = Some e /\
      evaluated conv e [] b = OtherBoxValue base /\
      f = Diagnostic (getCurrentLocation conv)
            "unhandled expression in STOP"%string /\
      b' = snd (genExprValue conv e [] b)).
Proof.
  destruct stmt as [k code quiet].
  unfold genStopStatement, evaluated, evalExpr, GetExpr.
  cbn [stmtKind stmtCode stmtQuiet].
  destruct code as [[[e|]]|]; cbn;
    [ destruct (genExprValue conv e [] b) as [[ev ctx] b1] eqn:E1;
      destruct ev as [addr len|x|base]; cbn;
      [ | | intros H; injection H as <- <-; right;
            exists (mkExpr (Some e)), e, base;
            rewrite E1; repeat split; reflexivity ]
    | intros H; injection H as <- <-; left; left; reflexivity
    | ];
    (destruct quiet as [[[qe|]]|]; cbn;
     [ match goal with
       | |- context [genExprValue conv qe ?c ?s] =>
           destruct (genExprValue conv qe c s) as [[qv qctx] b2] eqn:E2
       end; cbn
     | intros H; injection H as <- <-; left; right; eexists; reflexivity
     | ]);
    rewrite genUnreachable_run; unfold finalize; discriminate.
Qed.

(** ** Entry selection and actuals of the STOP driver *)

(** C1. The STOP driver selects the runtime entry by the classification of
    the stop code: with no stop code it calls the StopStatement entry and the
    first actual is a synthesized integer zero; with a character stop code
    it calls the StopStatementText entry, whose first actuals are the
    converted address and length; with a scalar stop code it calls the
    StopStatement entry, whose first actual is the converted code. In each
    case the lowering runs to its end. *)
Theorem genStopStatement_selects_entry (conv : AbstractConverter)
    (k : Kind) (quiet : option ScalarLogicalExpr) (b : FirOpBuilder) :
  (forall q, quiet = Some q -> GetExpr q <> None) ->
  (exists bf flags,
      genStopStatement conv (mkStopStmt k None quiet) b = Done tt bf /\
      noreturnCall bf =
      Some (CallOp (getCurrentLocation conv) (getRuntimeFunc StopStatement)
              (ConstantResult (IntegerTy 32) 0 :: flags))) /\
  (forall code e addr len,
      GetExpr code = Some e ->
      evaluated conv e [] b = CharBoxValue addr len ->
      exists bf flags,
        genStopStatement conv (mkStopStmt k (Some code) quiet) b
        = Done tt bf /\
        noreturnCall bf =
        Some (CallOp (getCurrentLocation conv)
                (getRuntimeFunc StopStatementText)
                (ConvertResult RefCharTy addr
                 :: ConvertResult (IntegerTy 64) len :: flags))) /\
  (forall code e x,
      GetExpr code = Some e ->
      evaluated conv e [] b = UnboxedValue x ->
      exists bf flags,
        genStopStatement conv (mkStopStmt k (Some code) quiet) b
        = Done tt bf /\
        noreturnCall bf =
        Some (CallOp (getCurrentLocation conv)
                (getRuntimeFunc StopStatement)
                (ConvertResult (IntegerTy 32) x :: flags))).
Proof.
  intros Hq.
  assert (Hquiet : match quiet with
                   | None => True
                   | Some q => GetExpr q <> None
                   end)
    by (destruct quiet as [q|]; [apply Hq; reflexivity | exact I]).
  split; [|split].
  - destruct (genStopStatement_completes conv (mkStopStmt k None quiet) b)
      as [bf Hrun]; [split; [exact I | exact Hquiet]|].
    destruct (genStopStatement_Done _ _ _ _ Hrun)
      as (callee & acts & isQuiet & ctx & b2 & [-> ->] & _ & ->).
    do 2 eexists. split; [exact Hrun|].
    rewrite noreturnCall_terminatedWith. reflexivity.
  - intros code e addr len He Hev.
    destruct (genStopStatement_completes conv
                (mkStopStmt k (Some code) quiet) b) as [bf Hrun].
    { split; [|exact Hquiet]. exists e. split; [exact He|].
      rewrite Hev. discriminate. }
    destruct (genStopStatement_Done _ _ _ _ Hrun)
      as (callee & acts & isQuiet & ctx & b2 & (e' & He' & Hc) & _ & ->).
    cbn [stmtCode] in He'. rewrite He in He'. injection He' as <-.
    rewrite Hev in Hc. destruct Hc as [-> ->].
    do 2 eexists. split; [exact Hrun|].
    rewrite noreturnCall_terminatedWith. reflexivity.
  - intros code e x He Hev.
    destruct (genStopStatement_completes conv
                (mkStopStmt k (Some code) quiet) b) as [bf Hrun].
    { split; [|exact Hquiet]. exists e. split; [exact He|].
      rewrite Hev. discriminate. }
    destruct (genStopStatement_Done _ _ _ _ Hrun)
      as (callee & acts & isQuiet & ctx & b2 & (e' & He' & Hc) & _ & ->).
    cbn [stmtCode] in He'. rewrite He in He'. injection He' as <-.
    rewrite Hev in Hc. destruct Hc as [-> ->].
    do 2 eexists. split; [exact Hrun|].
    rewrite noreturnCall_terminatedWith. reflexivity.
Qed.

Lemma genStopStatement_selects_entry_witness :
  (forall q, Some (typed 2) = Some q -> GetExpr q <> None) /\
  (exists bf flags,
      genStopStatement sampleConverter
        (mkStopStmt ErrorStop None (Some (typed 2))) emptyBuilder
      = Done tt bf /\
      noreturnCall bf =
      Some (CallOp sampleLoc (getRuntimeFunc StopStatement)
              (ConstantResult (IntegerTy 32) 0 :: flags))) /\
  (exists bf flags,
      genStopStatement sampleConverter
        (mkStopStmt ErrorStop (Some (typed 1)) (Some (typed 2))) emptyBuilder
      = Done tt bf /\
      noreturnCall bf =
      Some (CallOp sampleLoc (getRuntimeFunc StopStatementText)
              (ConvertResult RefCharTy (FrontEndValue (OtherTy 0) 10)
               :: ConvertResult (IntegerTy 64)
                    (ConstantResult (IntegerTy 64) 9) :: flags))) /\
  (exists bf flags,
      genStopStatement sampleConverter
        (mkStopStmt ErrorStop (Some (typed 0)) (Some (typed 2))) emptyBuilder
      = Done tt bf /\
      noreturnCall bf =
      Some (CallOp sampleLoc (getRuntimeFunc StopStatement)
              (ConvertResult (IntegerTy 32) (ConstantResult (IntegerTy 32) 5)
               :: flags))).
Proof.
  assert (Hq : forall q, Some (typed 2) = Some q -> GetExpr q <> None)
    by (intros q H; injection H as <-; discriminate).
  split; [exact Hq|].
  destruct (genStopStatement_selects_entry sampleConverter ErrorStop
              (Some (typed 2)) emptyBuilder Hq) as [H0 [H1 H2]].
  split; [exact H0|]. split.
  - apply (H1 (typed 1) (mkSomeExpr 1)); reflexivity.
  - apply (H2 (typed 0) (mkSomeExpr 0)); reflexivity.
Defined.

(** C2. Whatever operands were written, the call of a lowered STOP
    statement ends with both flags: the isError actual is a boolean
    constant that is 1 exactly for ERROR STOP and 0 otherwise, and the
    isQuiet actual is the converted base value of the quiet operand when
    one is written and the boolean constant 0 when none is. *)
Theorem genStopStatement_flags (conv : AbstractConverter) (stmt : StopStmt)
    (b bf : FirOpBuilder) :
  genStopStatement conv stmt b = Done tt bf ->
  exists callee codeActuals isError isQuiet,
    noreturnCall bf =
    Some (CallOp (getCurrentLocation conv) callee
            (codeActuals ++ [isError; isQuiet])) /\
    (exists c, isError = ConstantResult (IntegerTy 1) c /\
               (c = 1 <-> stmtKind stmt = ErrorStop) /\
               (c = 0 <-> stmtKind stmt <> ErrorStop)) /\
    match stmtQuiet stmt with
    | None => isQuiet = ConstantResult (IntegerTy 1) 0
    | Some quiet =>
        exists e ctx1 b1,
          GetExpr quiet = Some e /\
          isQuiet = ConvertResult (IntegerTy 1)
                      (getBase (evaluated conv e ctx1 b1))
    end.
Proof.
  intros Hrun.
  destruct (genStopStatement_Done _ _ _ _ Hrun)
    as (callee & acts & isQuiet & ctx & b2 & _ & Hquiet & ->).
  exists callee, acts. do 2 eexists.
  split; [apply noreturnCall_terminatedWith|].
  split; [|exact Hquiet].
  eexists. split; [reflexivity|].
  destruct (stmtKind stmt); cbn; split; split;
    try discriminate; try reflexivity; intros H; try lia;
    exfalso; apply H; reflexivity.
Qed.

Lemma genStopStatement_flags_witness :
  exists bf,
    genStopStatement sampleConverter
      (mkStopStmt ErrorStop (Some (typed 1)) None) emptyBuilder
    = Done tt bf /\
    exists callee codeActuals isError isQuiet,
      noreturnCall bf =
      Some (CallOp sampleLoc callee (codeActuals ++ [isError; isQuiet])) /\
      (exists c, isError = ConstantResult (IntegerTy 1) c /\
                 (c = 1 <-> ErrorStop = ErrorStop) /\
                 (c = 0 <-> ErrorStop <> ErrorStop)) /\
      isQuiet = ConstantResult (IntegerTy 1) 0.
Proof.
  eexists. split; [cbv; reflexivity|].
  apply (genStopStatement_flags sampleConverter
           (mkStopStmt ErrorStop (Some (typed 1)) None) emptyBuilder).
  reflexivity.
Defined.

(** C3. A character stop code yields exactly two actuals for the code,
    the converted address and then the converted length, in front of the
    two flags: four actuals in all. A scalar stop code and an absent one
    yield exactly one actual for the code: three actuals in all. *)
Theorem genStopStatement_actual_count (conv : AbstractConverter)
    (stmt : StopStmt) (b bf : FirOpBuilder) :
  genStopStatement conv stmt b = Done tt bf ->
  exists callee codeActuals isQuiet,
    let flags :=
      [ConstantResult (IntegerTy 1)
         (Z.b2z (Kind_eqb (stmtKind stmt) ErrorStop)); isQuiet] in
    noreturnCall bf =
    Some (CallOp (getCurrentLocation conv) callee (codeActuals ++ flags)) /\
    match stmtCode stmt with
    | None =>
        length codeActuals = 1%nat /\
        length (codeActuals ++ flags) = 3%nat
    | Some code =>
        exists e, GetExpr code = Some e /\
        match evaluated conv e [] b with
        | CharBoxValue addr len =>
            codeActuals = [ConvertResult RefCharTy addr;
                           ConvertResult (IntegerTy 64) len] /\
            length (codeActuals ++ flags) = 4%nat
        | UnboxedValue x =>
            length codeActuals = 1%nat /\
            length (codeActuals ++ flags) = 3%nat
        | OtherBoxValue _ => False
        end
    end.
Proof.
  intros Hrun.
  destruct (genStopStatement_Done _ _ _ _ Hrun)
    as (callee & acts & isQuiet & ctx & b2 & Hcode & _ & ->).
  exists callee, acts, isQuiet. cbv zeta.
  split; [apply noreturnCall_terminatedWith|].
  destruct (stmtCode stmt) as [code|].
  - destruct Hcode as (e & He & Hc). exists e. split; [exact He|].
    destruct (evaluated conv e [] b) as [addr len|x|base].
    + destruct Hc as [_ ->]. split; reflexivity.
    + destruct Hc as [_ ->]. split; reflexivity.
    + exact Hc.
  - destruct Hcode as [_ ->]. split; reflexivity.
Qed.

Lemma genStopStatement_actual_count_witness :
  exists bf,
    genStopStatement sampleConverter
      (mkStopStmt ErrorStop (Some (typed 1)) None) emptyBuilder
    = Done tt bf /\
    exists callee codeActuals isQuiet,
      noreturnCall bf =
      Some (CallOp sampleLoc callee
              (codeActuals ++ [ConstantResult (IntegerTy 1) 1; isQuiet])) /\
      exists e, Some (mkSomeExpr 1) = Some e /\
        match evaluated sampleConverter e [] emptyBuilder with
        | CharBoxValue addr len =>
            codeActuals = [ConvertResult RefCharTy addr;
                           ConvertResult (IntegerTy 64) len] /\
            length (codeActuals ++ [ConstantResult (IntegerTy 1) 1; isQuiet])
            = 4%nat
        | UnboxedValue x =>
            length codeActuals = 1%nat /\
            length (codeActuals ++ [ConstantResult (IntegerTy 1) 1; isQuiet])
            = 3%nat
        | OtherBoxValue _ => False
        end.
Proof.
  eexists. split; [cbv; reflexivity|].
  apply (genStopStatement_actual_count sampleConverter
           (mkStopStmt ErrorStop (Some (typed 1)) None) emptyBuilder).
  reflexivity.
Defined.

(** ** The other drivers, run by run *)

Lemma emitOps_emitOps (xs ys : list Op) (b : FirOpBuilder) :
  emitOps ys (emitOps xs b) = emitOps (xs ++ ys) b.
Proof.
  unfold emitOps. cbn [blocksBefore opsBefore opsAfter blocksAfter].
  rewrite app_assoc. reflexivity.
Qed.

Ltac run_driver :=
  cbn; unfold create, emitOps; cbn;
  repeat rewrite <- app_assoc; reflexivity.

Lemma genPauseStatement_run (conv : AbstractConverter) (stmt : PauseStmt)
    (b : FirOpBuilder) :
  genPauseStatement conv stmt b =
  Done tt (emitOps [CallOp (getCurrentLocation conv)
                      (getRuntimeFunc PauseStatement) []] b).
Proof. reflexivity. Qed.

Lemma genAssociated_run (loc : Location) (pointer target : Value)
    (b : FirOpBuilder) :
  genAssociated loc pointer target b =
  Done (CallResult (IntegerTy 1) PointerIsAssociatedWith
          [ConvertResult BoxNoneTy pointer; ConvertResult BoxNoneTy target]
          0)
       (emitOps ([ConvertOp loc BoxNoneTy pointer;
                  ConvertOp loc BoxNoneTy target] ++
                 [CallOp loc (getRuntimeFunc PointerIsAssociatedWith)
                    [ConvertResult BoxNoneTy pointer;
                     ConvertResult BoxNoneTy target]]) b).
Proof. run_driver. Qed.

Lemma genRandomInit_run (loc : Location) (repeatable imageDistinct : Value)
    (b : FirOpBuilder) :
  genRandomInit loc repeatable imageDistinct b =
  Done tt
       (emitOps ([ConvertOp loc (IntegerTy 1) repeatable;
                  ConvertOp loc (IntegerTy 1) imageDistinct] ++
                 [CallOp loc (getRuntimeFunc RandomInit)
                    [ConvertResult (IntegerTy 1) repeatable;
                     ConvertResult (IntegerTy 1) imageDistinct]]) b).
Proof. run_driver. Qed.

Lemma genRandomNumber_run (loc : Location) (harvest : Value)
    (b : FirOpBuilder) :
  genRandomNumber loc harvest b =
  Done tt
       (emitOps (positionedOps loc harvest ++
                 [CallOp loc (getRuntimeFunc RandomNumber)
                    (positionedActuals loc harvest)]) b).
Proof. run_driver. Qed.

Lemma genRandomSeed_run_default (loc : Location) (argBox : Value)
    (b : FirOpBuilder) :
  genRandomSeed loc (-1) argBox b =
  Done tt (emitOps [CallOp loc (getRuntimeFunc RandomSeedDefaultPut) []] b).
Proof. reflexivity. Qed.

Lemma genRandomSeed_run_size (loc : Location) (argBox : Value)
    (b : FirOpBuilder) :
  genRandomSeed loc 0 argBox b =
  Done tt
       (emitOps (positionedOps loc argBox ++
                 [CallOp loc (getRuntimeFunc RandomSeedSize)
                    (positionedActuals loc argBox)]) b).
Proof. run_driver. Qed.

Lemma genRandomSeed_run_put (loc : Location) (argBox : Value)
    (b : FirOpBuilder) :
  genRandomSeed loc 1 argBox b =
  Done tt
       (emitOps (positionedOps loc argBox ++
                 [CallOp loc (getRuntimeFunc RandomSeedPut)
                    (positionedActuals loc argBox)]) b).
Proof. run_driver. Qed.

Lemma genRandomSeed_run_get (loc : Location) (argBox : Value)
    (b : FirOpBuilder) :
  genRandomSeed loc 2 argBox b =
  Done tt
       (emitOps (positionedOps loc argBox ++
                 [CallOp loc (getRuntimeFunc RandomSeedGet)
                    (positionedActuals loc argBox)]) b).
Proof. run_driver. Qed.

Lemma genRandomSeed_run_invalid (loc : Location) (argIndex : Z)
    (argBox : Value) (b : FirOpBuilder) :
  argIndex <> -1 -> argIndex <> 0 -> argIndex <> 1 -> argIndex <> 2 ->
  genRandomSeed loc argIndex argBox b =
  Halted (FatalError "invalid RANDOM_SEED argument index"%string) b.
Proof.
  intros Hm H0 H1 H2.
  destruct argIndex as [|[[p|p|]|[p|p|]|]|[p|p|]];
    try reflexivity; congruence.
Qed.

(** Every run of the seed driver is one of the five above. *)
Lemma genRandomSeed_cases (argIndex : Z) :
  argIndex = -1 \/ argIndex = 0 \/ argIndex = 1 \/ argIndex = 2 \/
  (argIndex <> -1 /\ argIndex <> 0 /\ argIndex <> 1 /\ argIndex <> 2).
Proof. lia. Qed.

Lemma terminate_run (call : Op) (loc : Location)
    (stmtCtx : StatementContext) (b : FirOpBuilder) :
  match genUnreachable loc (emitOps [call] b) with
  | Done _ b' => finalize stmtCtx b'
  | Halted f b' => Halted f b'
  end = Done tt (terminatedWith call loc stmtCtx b).
Proof.
  rewrite genUnreachable_run. unfold finalize.
  cbn [emitOps blocksBefore opsBefore opsAfter blocksAfter].
  rewrite terminated_shape. destruct b; reflexivity.
Qed.

Ltac prove_in :=
  match goal with
  | |- ?x = ?x => reflexivity
  | |- In _ (_ ++ _) => apply in_or_app; prove_in
  | |- In _ (_ :: _) => cbn [In]; prove_in
  | |- _ \/ _ => (left; prove_in) || (right; prove_in)
  end.

Ltac find_defining_op :=
  match goal with
  | |- Exists _ _ => apply Exists_exists
  end;
  match goal with
  | |- exists op, In op ?pre /\ defines op (ConvertResult ?ty ?x) =>
      match pre with
      | context [ConvertOp ?loc ty x] => exists (ConvertOp loc ty x)
      end
  | |- exists op, In op ?pre /\ defines op (ConstantResult ?ty ?c) =>
      match pre with
      | context [ConstantOp ?loc ty c] => exists (ConstantOp loc ty c)
      end
  end;
  split; [prove_in | reflexivity].

Ltac all_defined :=
  cbv [positionedOps positionedActuals];
  cbn [actualsDefinedIn app];
  repeat (apply Forall_cons || apply Forall_nil); find_defining_op.

(** ** Call sites match the signature of their entry *)

Ltac well_formed :=
  cbn; split; [reflexivity|];
  repeat (apply Forall2_cons || apply Forall2_nil);
  (split; [reflexivity
          | first [left; eexists; reflexivity
                  | right; eexists; reflexivity]]).

Lemma Done_eq {A : Type} (a a' : A) (b b' : FirOpBuilder) :
  Done a b = Done a' b' -> a = a' /\ b = b'.
Proof. intros H. injection H as -> ->. split; reflexivity. Qed.

Ltac done_state H := apply Done_eq in H; destruct H as [_ <-].

Ltac only_call pre :=
  exists pre; eexists; split; [reflexivity|];
  split; [reflexivity|];
  split; [well_formed | first [apply Forall_nil | all_defined]].

(** Every completed run of the STOP driver is accounted for, operation
    by operation. *)
Lemma genStopStatement_lowering (conv : AbstractConverter)
    (stmt : StopStmt) (b bf : FirOpBuilder) :
  genStopStatement conv stmt b = Done tt bf ->
  exists call, stopLowering conv stmt b call bf.
Proof.
  destruct stmt as [k code quiet].
  unfold genStopStatement, stopLowering, evalExpr, GetExpr.
  cbn [stmtKind stmtCode stmtQuiet].
  destruct code as [[[e|]]|]; cbn -[emitOps]; try discriminate;
    [ destruct (genExprValue conv e [] b) as [[ev ctx] b1] eqn:E1;
      destruct ev as [addr len|x|base]; cbn -[emitOps]; try discriminate
    | ];
    (destruct quiet as [[[qe|]]|]; cbn -[emitOps]; try discriminate;
     [ rewrite ?emitOps_emitOps; cbn [app];
       match goal with
       | |- context [genExprValue conv qe ?c ?s] =>
           destruct (genExprValue conv qe c s) as [[qv qctx] b2] eqn:E2
       end; cbn -[emitOps]
     | ]);
    rewrite terminate_run; intros H; done_state H;
    (do 10 eexists;
     split;
     [ first [ eexists; split; [reflexivity|]; rewrite E1;
               repeat split; reflexivity
             | repeat split; reflexivity ]
     | split;
       [ first [ eexists; split; [reflexivity|]; cbn [app]; rewrite E2;
                 repeat split; reflexivity
               | repeat split; reflexivity ]
       | split; [reflexivity|];
         split; [rewrite ?emitOps_emitOps; reflexivity|];
         split; [reflexivity | all_defined] ] ]).
Qed.

(** C4, as stated, fails: in the call for a STOP statement without
    operands no actual is the result of a conversion. The zero stop code
    and both flags are constants that the driver creates directly in the
    formal type, and the block holds no conversion at all. *)
Lemma call_sites_converted_counterexample :
  exists operands,
    genStopStatement sampleConverter (mkStopStmt Stop None None) emptyBuilder
    = Done tt
        (mkBuilder
           [[ConstantOp sampleLoc (IntegerTy 32) 0;
             ConstantOp sampleLoc (IntegerTy 1) 0;
             ConstantOp sampleLoc (IntegerTy 1) 0;
             CallOp sampleLoc (getRuntimeFunc StopStatement) operands;
             UnreachableOp sampleLoc]]
           [] [] []) /\
    operands = [ConstantResult (IntegerTy 32) 0;
                ConstantResult (IntegerTy 1) 0;
                ConstantResult (IntegerTy 1) 0] /\
    forallb isConversion operands = false /\
    existsb isConversion operands = false.
Proof.
  exists [ConstantResult (IntegerTy 32) 0;
          ConstantResult (IntegerTy 1) 0;
          ConstantResult (IntegerTy 1) 0].
  split; [reflexivity|]. repeat split; reflexivity.
Qed.

(** C4, amended. Every call a driver emits has as many actuals as its
    runtime entry has formal parameters, and the actual at each position
    has the representation of the formal at that position: an operand of
    the statement is converted to the formal type, and a synthesized
    actual (the zero stop code, the isError flag, the default isQuiet
    flag) is a constant created directly in the formal type. The
    operations that produce the actuals are created before the call, and
    the call is the only one the driver adds: for the STOP driver the run
    is accounted for operation by operation around the evaluations done
    by the front end, for the other drivers the operations added are the
    producing operations followed by the call. *)
Theorem call_sites_match_signature :
  (forall conv stmt b bf,
      genStopStatement conv stmt b = Done tt bf ->
      exists call,
        stopLowering conv stmt b call bf /\
        noreturnCall bf = Some call /\ wellFormedCall call) /\
  (forall conv stmt b bf,
      genPauseStatement conv stmt b = Done tt bf ->
      onlyCallMarshaled b bf) /\
  (forall loc pointer target b r bf,
      genAssociated loc pointer target b = Done r bf ->
      onlyCallMarshaled b bf) /\
  (forall loc repeatable imageDistinct b bf,
      genRandomInit loc repeatable imageDistinct b = Done tt bf ->
      onlyCallMarshaled b bf) /\
  (forall loc harvest b bf,
      genRandomNumber loc harvest b = Done tt bf ->
      onlyCallMarshaled b bf) /\
  (forall loc argIndex argBox b bf,
      genRandomSeed loc argIndex argBox b = Done tt bf ->
      onlyCallMarshaled b bf).
Proof.
  split; [|split; [|split; [|split; [|split]]]].
  - intros conv stmt b bf Hrun.
    destruct (genStopStatement_lowering _ _ _ _ Hrun) as [call Hlow].
    exists call. split; [exact Hlow|].
    destruct Hlow
      as (callee & acts & own1 & ctx1 & b1 & isQuiet & own2 & ctx2 & b2 &
          Hcode & Hquiet & -> & -> & _ & _).
    split; [apply noreturnCall_terminatedWith|].
    assert (Hq : marshaledTo isQuiet (IntegerTy 1)).
    { destruct (stmtQuiet stmt).
      - destruct Hquiet as (qe & _ & Hquiet).
        destruct (genExprValue conv qe ctx1 _) as [[qv c] s1].
        destruct Hquiet as (-> & _).
        split; [reflexivity|]. left. eexists. reflexivity.
      - destruct Hquiet as (-> & _).
        split; [reflexivity|]. right. eexists. reflexivity. }
    assert (Hc : (callee = getRuntimeFunc StopStatementText /\
                  exists a l, acts = [ConvertResult RefCharTy a;
                                      ConvertResult (IntegerTy 64) l]) \/
                 (callee = getRuntimeFunc StopStatement /\
                  exists v, acts = [v] /\ marshaledTo v (IntegerTy 32))).
    { destruct (stmtCode stmt).
      - destruct Hcode as (e & _ & Hc).
        destruct (genExprValue conv e [] b) as [[ev c] s1].
        destruct ev; [left|right|contradiction];
          destruct Hc as (-> & -> & _); (split; [reflexivity|]).
        + do 2 eexists. reflexivity.
        + eexists. split; [reflexivity|].
          split; [reflexivity|]. left. eexists. reflexivity.
      - right. destruct Hcode as (-> & -> & _). split; [reflexivity|].
        eexists. split; [reflexivity|].
        split; [reflexivity|]. right. eexists. reflexivity. }
    destruct Hc as [[-> (a & l & ->)]|[-> (v & -> & Hv)]];
      cbn; (split; [reflexivity|]);
      repeat (apply Forall2_cons || apply Forall2_nil);
      try exact Hv; try exact Hq;
      (split; [reflexivity
              | first [left; eexists; reflexivity
                      | right; eexists; reflexivity]]).
  - intros conv stmt b bf. rewrite genPauseStatement_run.
    intros H; done_state H. only_call (@nil Op).
  - intros loc pointer target b r bf. rewrite genAssociated_run.
    intros H; done_state H.
    only_call [ConvertOp loc BoxNoneTy pointer;
               ConvertOp loc BoxNoneTy target].
  - intros loc repeatable imageDistinct b bf. rewrite genRandomInit_run.
    intros H; done_state H.
    only_call [ConvertOp loc (IntegerTy 1) repeatable;
               ConvertOp loc (IntegerTy 1) imageDistinct].
  - intros loc harvest b bf. rewrite genRandomNumber_run.
    intros H; done_state H. only_call (positionedOps loc harvest).
  - intros loc argIndex argBox b bf.
    destruct (genRandomSeed_cases argIndex)
      as [-> | [-> | [-> | [-> | (Hm & H0 & H1 & H2)]]]].
    + rewrite genRandomSeed_run_default.
      intros H; done_state H. only_call (@nil Op).
    + rewrite genRandomSeed_run_size.
      intros H; done_state H. only_call (positionedOps loc argBox).
    + rewrite genRandomSeed_run_put.
      intros H; done_state H. only_call (positionedOps loc argBox).
    + rewrite genRandomSeed_run_get.
      intros H; done_state H. only_call (positionedOps loc argBox).
    + rewrite genRandomSeed_run_invalid by assumption. discriminate.
Qed.

Lemma call_sites_match_signature_witness :
  (exists bf call,
      genStopStatement sampleConverter
        (mkStopStmt ErrorStop (Some (typed 1)) (Some (typed 2))) emptyBuilder
      = Done tt bf /\
      stopLowering sampleConverter
        (mkStopStmt ErrorStop (Some (typed 1)) (Some (typed 2)))
        emptyBuilder call bf /\
      noreturnCall bf = Some call /\ wellFormedCall call) /\
  (exists bf,
      genPauseStatement sampleConverter (mkPauseStmt None) emptyBuilder
      = Done tt bf /\ onlyCallMarshaled emptyBuilder bf) /\
  (exists r bf,
      genAssociated sampleLoc (FrontEndValue BoxNoneTy 1)
        (FrontEndValue (OtherTy 2) 2) emptyBuilder = Done r bf /\
      onlyCallMarshaled emptyBuilder bf) /\
  (exists bf,
      genRandomInit sampleLoc (FrontEndValue (OtherTy 4) 1)
        (FrontEndValue (OtherTy 4) 2) emptyBuilder = Done tt bf /\
      onlyCallMarshaled emptyBuilder bf) /\
  (exists bf,
      genRandomNumber sampleLoc (FrontEndValue (OtherTy 3) 1) emptyBuilder
      = Done tt bf /\ onlyCallMarshaled emptyBuilder bf) /\
  (exists bf,
      genRandomSeed sampleLoc 1 (FrontEndValue (OtherTy 3) 1) emptyBuilder
      = Done tt bf /\ onlyCallMarshaled emptyBuilder bf).
Proof.
  destruct call_sites_match_signature as (Hs & Hp & Ha & Hi & Hn & Hseed).
  split; [|split; [|split; [|split; [|split]]]].
  - edestruct (Hs sampleConverter
                 (mkStopStmt ErrorStop (Some (typed 1)) (Some (typed 2)))
                 emptyBuilder) as (call & Hlow & Hcall & Hwf);
      [cbv; reflexivity|].
    do 2 eexists. split; [cbv; reflexivity|].
    split; [exact Hlow|]. split; [exact Hcall | exact Hwf].
  - eexists. split; [cbv; reflexivity|].
    apply (Hp sampleConverter (mkPauseStmt None)). reflexivity.
  - do 2 eexists. split; [cbv; reflexivity|].
    eapply (Ha sampleLoc (FrontEndValue BoxNoneTy 1)
              (FrontEndValue (OtherTy 2) 2)). reflexivity.
  - eexists. split; [cbv; reflexivity|].
    apply (Hi sampleLoc (FrontEndValue (OtherTy 4) 1)
             (FrontEndValue (OtherTy 4) 2)). reflexivity.
  - eexists. split; [cbv; reflexivity|].
    apply (Hn sampleLoc (FrontEndValue (OtherTy 3) 1)). reflexivity.
  - eexists. split; [cbv; reflexivity|].
    apply (Hseed sampleLoc 1 (FrontEndValue (OtherTy 3) 1)). reflexivity.
Defined.

(** ** The terminator handler *)

Ltac no_terminator :=
  eexists; split; [reflexivity | reflexivity].

(** C5. The terminator handler appends an unreachable terminator to the
    current block and moves the insertion point to the start of a new block
    placed right behind it, which receives the operations that followed the
    insertion point. The STOP driver runs the handler on the builder whose
    last operation is the runtime call it has just emitted, and what it
    leaves behind is the result of the handler followed by the clean-up of
    the statement. No other driver adds a terminator or a block: each only
    adds operations at the insertion point of the current block. *)
Theorem terminator_only_after_stop :
  (forall loc b,
      genUnreachable loc b =
      Done tt (mkBuilder
                 (blocksBefore b ++ [opsBefore b ++ [UnreachableOp loc]])
                 [] (opsAfter b) (blocksAfter b))) /\
  (forall conv stmt b bf,
      genStopStatement conv stmt b = Done tt bf ->
      exists call stmtCtx b2 bu,
        isCall call = true /\
        genUnreachable (getCurrentLocation conv) (emitOps [call] b2)
        = Done tt bu /\
        blocksBefore bu =
        blocksBefore b2 ++
        [opsBefore b2 ++ [call; UnreachableOp (getCurrentLocation conv)]] /\
        opsBefore bu = [] /\
        opsAfter bu = opsAfter b2 /\
        bf = emitOps stmtCtx bu) /\
  (forall conv stmt b,
      exists bf, genPauseStatement conv stmt b = Done tt bf /\
                 addsNoTerminator b bf) /\
  (forall loc pointer target b,
      exists r bf, genAssociated loc pointer target b = Done r bf /\
                   addsNoTerminator b bf) /\
  (forall loc repeatable imageDistinct b,
      exists bf, genRandomInit loc repeatable imageDistinct b = Done tt bf /\
                 addsNoTerminator b bf) /\
  (forall loc harvest b,
      exists bf, genRandomNumber loc harvest b = Done tt bf /\
                 addsNoTerminator b bf) /\
  (forall loc argIndex argBox b,
      match genRandomSeed loc argIndex argBox b with
      | Done _ bf => addsNoTerminator b bf
      | Halted _ b' => b' = b
      end).
Proof.
  split; [exact genUnreachable_run|].
  split; [|split; [|split; [|split; [|split]]]].
  - intros conv stmt b bf Hrun.
    destruct (genStopStatement_Done _ _ _ _ Hrun)
      as (callee & acts & isQuiet & ctx & b2 & _ & _ & ->).
    exists (CallOp (getCurrentLocation conv) callee
              (acts ++
               [ConstantResult (IntegerTy 1)
                  (Z.b2z (Kind_eqb (stmtKind stmt) ErrorStop)); isQuiet])),
      ctx, b2.
    eexists. split; [reflexivity|].
    split; [apply genUnreachable_run|].
    cbn [emitOps blocksBefore opsBefore opsAfter blocksAfter].
    rewrite <- app_assoc.
    repeat split; reflexivity.
  - intros. rewrite genPauseStatement_run. eexists. split; [reflexivity|].
    no_terminator.
  - intros. rewrite genAssociated_run. do 2 eexists.
    split; [reflexivity|]. no_terminator.
  - intros. rewrite genRandomInit_run. eexists. split; [reflexivity|].
    no_terminator.
  - intros. rewrite genRandomNumber_run. eexists. split; [reflexivity|].
    no_terminator.
  - intros loc argIndex argBox b.
    destruct (genRandomSeed_cases argIndex)
      as [-> | [-> | [-> | [-> | (Hm & H0 & H1 & H2)]]]].
    + rewrite genRandomSeed_run_default. no_terminator.
    + rewrite genRandomSeed_run_size. no_terminator.
    + rewrite genRandomSeed_run_put. no_terminator.
    + rewrite genRandomSeed_run_get. no_terminator.
    + rewrite genRandomSeed_run_invalid by assumption. reflexivity.
Qed.

Lemma terminator_only_after_stop_witness :
  exists bf,
    genStopStatement sampleConverter
      (mkStopStmt Stop (Some (typed 1)) None) emptyBuilder = Done tt bf /\
    exists call stmtCtx b2 bu,
      isCall call = true /\
      genUnreachable sampleLoc (emitOps [call] b2) = Done tt bu /\
      blocksBefore bu =
      blocksBefore b2 ++ [opsBefore b2 ++ [call; UnreachableOp sampleLoc]] /\
      opsBefore bu = [] /\
      opsAfter bu = opsAfter b2 /\
      bf = emitOps stmtCtx bu.
Proof.
  eexists. split; [cbv; reflexivity|].
  apply (proj1 (proj2 terminator_only_after_stop) sampleConverter
           (mkStopStmt Stop (Some (typed 1)) None) emptyBuilder).
  reflexivity.
Defined.

(** ** The seed driver *)

(** C6. The seed driver maps index -1 to the default-set entry, called
    with no actuals, and indexes 0, 1 and 2 to the size, put and get
    entries, each called with the converted argument box, source file and
    source line; no other call is emitted on the way. For every other
    index it stops the compiler with a fatal internal error and leaves the
    builder as it found it. *)
Theorem genRandomSeed_dispatch (loc : Location) (argBox : Value)
    (b : FirOpBuilder) :
  genRandomSeed loc (-1) argBox b =
  Done tt (emitOps [CallOp loc (getRuntimeFunc RandomSeedDefaultPut) []] b) /\
  genRandomSeed loc 0 argBox b =
  Done tt (emitOps (positionedOps loc argBox ++
                    [CallOp loc (getRuntimeFunc RandomSeedSize)
                       (positionedActuals loc argBox)]) b) /\
  genRandomSeed loc 1 argBox b =
  Done tt (emitOps (positionedOps loc argBox ++
                    [CallOp loc (getRuntimeFunc RandomSeedPut)
                       (positionedActuals loc argBox)]) b) /\
  genRandomSeed loc 2 argBox b =
  Done tt (emitOps (positionedOps loc argBox ++
                    [CallOp loc (getRuntimeFunc RandomSeedGet)
                       (positionedActuals loc argBox)]) b) /\
  positionedActuals loc argBox =
  [ConvertResult BoxNoneTy argBox;
   ConvertResult RefCharTy (StringLitAddr (locFile loc));
   ConvertResult (IntegerTy 32)
     (ConstantResult (IntegerTy 32) (locLine loc))] /\
  existsb isCall (positionedOps loc argBox) = false /\
  (forall argIndex,
      argIndex <> -1 -> argIndex <> 0 -> argIndex <> 1 -> argIndex <> 2 ->
      genRandomSeed loc argIndex argBox b =
      Halted (FatalError "invalid RANDOM_SEED argument index"%string) b).
Proof.
  split; [apply genRandomSeed_run_default|].
  split; [apply genRandomSeed_run_size|].
  split; [apply genRandomSeed_run_put|].
  split; [apply genRandomSeed_run_get|].
  split; [reflexivity|]. split; [reflexivity|].
  intros argIndex. apply genRandomSeed_run_invalid.
Qed.

Lemma genRandomSeed_dispatch_witness :
  (3 <> -1 /\ 3 <> 0 /\ 3 <> 1 /\ 3 <> 2) /\
  genRandomSeed sampleLoc 3 (FrontEndValue BoxNoneTy 1) emptyBuilder =
  Halted (FatalError "invalid RANDOM_SEED argument index"%string)
         emptyBuilder.
Proof.
  assert (Hm : 3 <> -1) by lia. assert (H0 : 3 <> 0) by lia.
  assert (H1 : 3 <> 1) by lia. assert (H2 : 3 <> 2) by lia.
  split; [repeat split; assumption|].
  exact (proj2 (proj2 (proj2 (proj2 (proj2 (proj2
           (genRandomSeed_dispatch sampleLoc (FrontEndValue BoxNoneTy 1)
              emptyBuilder)))))) 3 Hm H0 H1 H2).
Defined.

(** ** Failures *)

(** C7. A stop code that evaluates to neither a character value nor a
    scalar makes the STOP driver report the diagnostic "unhandled
    expression in STOP" at the location of the statement and stop the
    compiler; the builder is then as the evaluation of the stop code left
    it, so no call was emitted. Among the drivers this is the only way to
    stop with a located diagnostic: whenever the STOP driver does, the stop
    code was of an unsupported variant, and no other driver ever does. *)
Theorem unsupported_stop_code_diagnostic :
  (forall conv stmt code e base b,
      stmtCode stmt = Some code ->
      GetExpr code = Some e ->
      evaluated conv e [] b = OtherBoxValue base ->
      genStopStatement conv stmt b =
      Halted (Diagnostic (getCurrentLocation conv)
                "unhandled expression in STOP"%string)
             (snd (genExprValue conv e [] b))) /\
  (forall conv stmt b loc msg b',
      genStopStatement conv stmt b = Halted (Diagnostic loc msg) b' ->
      exists code e base,
        stmtCode stmt = Some code /\ GetExpr code = Some e /\
        evaluated conv e [] b = OtherBoxValue base /\
        loc = getCurrentLocation conv /\
        b' = snd (genExprValue conv e [] b)) /\
  (forall conv stmt b loc msg b',
      genPauseStatement conv stmt b <> Halted (Diagnostic loc msg) b') /\
  (forall l pointer target b loc msg b',
      genAssociated l pointer target b <> Halted (Diagnostic loc msg) b') /\
  (forall l repeatable imageDistinct b loc msg b',
      genRandomInit l repeatable imageDistinct b
      <> Halted (Diagnostic loc msg) b') /\
  (forall l harvest b loc msg b',
      genRandomNumber l harvest b <> Halted (Diagnostic loc msg) b') /\
  (forall l argIndex argBox b loc msg b',
      genRandomSeed l argIndex argBox b <> Halted (Diagnostic loc msg) b').
Proof.
  split; [|split; [|split; [|split; [|split; [|split]]]]].
  - intros conv [k c q] code e base b Hc He Hev.
    cbn [stmtCode] in Hc. subst c.
    destruct code as [te]. unfold GetExpr in He. cbn in He. subst te.
    unfold evaluated in Hev.
    unfold genStopStatement, evalExpr, GetExpr.
    cbn [stmtKind stmtCode stmtQuiet]. cbn.
    destruct (genExprValue conv e [] b) as [[ev ctx] b1].
    cbn in Hev. subst ev. reflexivity.
  - intros conv stmt b loc msg b' Hrun.
    destruct (genStopStatement_Halted _ _ _ _ _ Hrun)
      as [[Hm | [m Hm]] | (code & e & base & Hc & He & Hev & Hf & Hb)];
      [discriminate | discriminate |].
    injection Hf as -> _. exists code, e, base. repeat split; assumption.
  - intros. rewrite genPauseStatement_run. discriminate.
  - intros. rewrite genAssociated_run. discriminate.
  - intros. rewrite genRandomInit_run. discriminate.
  - intros. rewrite genRandomNumber_run. discriminate.
  - intros l argIndex argBox b loc msg b'.
    destruct (genRandomSeed_cases argIndex)
      as [-> | [-> | [-> | [-> | (Hm & H0 & H1 & H2)]]]].
    + rewrite genRandomSeed_run_default. discriminate.
    + rewrite genRandomSeed_run_size. discriminate.
    + rewrite genRandomSeed_run_put. discriminate.
    + rewrite genRandomSeed_run_get. discriminate.
    + rewrite genRandomSeed_run_invalid by assumption. discriminate.
Qed.

Lemma unsupported_stop_code_diagnostic_witness :
  genStopStatement sampleConverter
    (mkStopStmt Stop (Some (typed 3)) None) emptyBuilder =
  Halted (Diagnostic sampleLoc "unhandled expression in STOP"%string)
         (emitOps [ForeignOp 20] emptyBuilder) /\
  exists code e base,
    Some (typed 3) = Some code /\ GetExpr code = Some e /\
    evaluated sampleConverter e [] emptyBuilder = OtherBoxValue base /\
    sampleLoc = getCurrentLocation sampleConverter /\
    emitOps [ForeignOp 20] emptyBuilder =
    snd (genExprValue sampleConverter e [] emptyBuilder).
Proof.
  destruct unsupported_stop_code_diagnostic as (Hreport & Honly & _).
  split.
  - apply (Hreport sampleConverter (mkStopStmt Stop (Some (typed 3)) None)
             (typed 3) (mkSomeExpr 3) (FrontEndValue (OtherTy 1) 20)
             emptyBuilder); reflexivity.
  - apply (Honly sampleConverter (mkStopStmt Stop (Some (typed 3)) None)
             emptyBuilder sampleLoc "unhandled expression in STOP"%string).
    reflexivity.
Defined.

(** ** Source positions *)

(** C8. The runtime calls for RANDOM_NUMBER and for RANDOM_SEED with a
    SIZE, PUT or GET argument end with two actuals that carry the source
    file and the source line of the call. The actuals of every other call
    are the operands of the statement alone: none for PAUSE and for
    RANDOM_SEED without argument, the two flags for RANDOM_INIT, pointer
    and target for ASSOCIATED, and the stop code followed by the isError
    and isQuiet flags for STOP. *)
Theorem source_position_operands :
  (forall loc harvest b,
      genRandomNumber loc harvest b =
      Done tt (emitOps (positionedOps loc harvest ++
                        [CallOp loc (getRuntimeFunc RandomNumber)
                           ([ConvertResult BoxNoneTy harvest] ++
                            [ConvertResult RefCharTy (sourceFileValue loc);
                             ConvertResult (IntegerTy 32)
                               (sourceLineValue loc (IntegerTy 32))])]) b)) /\
  (forall loc argIndex argBox b,
      argIndex = 0 \/ argIndex = 1 \/ argIndex = 2 ->
      exists callee,
        genRandomSeed loc argIndex argBox b =
        Done tt (emitOps (positionedOps loc argBox ++
                          [CallOp loc callee
                             ([ConvertResult BoxNoneTy argBox] ++
                              [ConvertResult RefCharTy (sourceFileValue loc);
                               ConvertResult (IntegerTy 32)
                                 (sourceLineValue loc (IntegerTy 32))])])
                   b)) /\
  (forall loc x, existsb isCall (positionedOps loc x) = false) /\
  (forall loc argBox b,
      genRandomSeed loc (-1) argBox b =
      Done tt (emitOps [CallOp loc (getRuntimeFunc RandomSeedDefaultPut) []]
                 b)) /\
  (forall conv stmt b,
      genPauseStatement conv stmt b =
      Done tt (emitOps [CallOp (getCurrentLocation conv)
                          (getRuntimeFunc PauseStatement) []] b)) /\
  (forall loc repeatable imageDistinct b,
      exists pre,
        genRandomInit loc repeatable imageDistinct b =
        Done tt (emitOps (pre ++
                          [CallOp loc (getRuntimeFunc RandomInit)
                             [ConvertResult (IntegerTy 1) repeatable;
                              ConvertResult (IntegerTy 1) imageDistinct]])
                   b)) /\
  (forall loc pointer target b,
      exists pre r,
        genAssociated loc pointer target b =
        Done r (emitOps (pre ++
                         [CallOp loc (getRuntimeFunc PointerIsAssociatedWith)
                            [ConvertResult BoxNoneTy pointer;
                             ConvertResult BoxNoneTy target]]) b)) /\
  (forall conv stmt b bf,
      genStopStatement conv stmt b = Done tt bf ->
      exists callee codeActuals isQuiet,
        noreturnCall bf =
        Some (CallOp (getCurrentLocation conv) callee
                (codeActuals ++
                 [ConstantResult (IntegerTy 1)
                    (Z.b2z (Kind_eqb (stmtKind stmt) ErrorStop));
                  isQuiet])) /\
        match stmtCode stmt with
        | None => codeActuals = [ConstantResult (IntegerTy 32) 0]
        | Some code =>
            exists e, GetExpr code = Some e /\
            match evaluated conv e [] b with
            | CharBoxValue addr len =>
                codeActuals = [ConvertResult RefCharTy addr;
                               ConvertResult (IntegerTy 64) len]
            | UnboxedValue x =>
                codeActuals = [ConvertResult (IntegerTy 32) x]
            | OtherBoxValue _ => False
            end
        end /\
        match stmtQuiet stmt with
        | None => isQuiet = ConstantResult (IntegerTy 1) 0
        | Some quiet =>
            exists e ctx1 b1, GetExpr quiet = Some e /\
            isQuiet = ConvertResult (IntegerTy 1)
                        (getBase (evaluated conv e ctx1 b1))
        end).
Proof.
  split; [exact genRandomNumber_run|].
  split; [|split; [reflexivity|]].
  { intros loc argIndex argBox b [-> | [-> | ->]]; eexists.
    - apply genRandomSeed_run_size.
    - apply genRandomSeed_run_put.
    - apply genRandomSeed_run_get. }
  split; [exact genRandomSeed_run_default|].
  split; [exact genPauseStatement_run|].
  split; [intros; eexists; apply genRandomInit_run|].
  split; [intros; do 2 eexists; apply genAssociated_run|].
  intros conv stmt b bf Hrun.
  destruct (genStopStatement_Done _ _ _ _ Hrun)
    as (callee & acts & isQuiet & ctx & b2 & Hcode & Hquiet & ->).
  exists callee, acts, isQuiet.
  split; [apply noreturnCall_terminatedWith|].
  split; [|exact Hquiet].
  destruct (stmtCode stmt) as [code|]; [|apply Hcode].
  destruct Hcode as (e & He & Hc). exists e. split; [exact He|].
  destruct (evaluated conv e [] b); [apply Hc | apply Hc | exact Hc].
Qed.

Lemma source_position_operands_witness :
  (1 = 0 \/ 1 = 1 \/ 1 = 2) /\
  (exists callee,
      genRandomSeed sampleLoc 1 (FrontEndValue BoxNoneTy 1) emptyBuilder =
      Done tt (emitOps (positionedOps sampleLoc (FrontEndValue BoxNoneTy 1) ++
                        [CallOp sampleLoc callee
                           ([ConvertResult BoxNoneTy
                               (FrontEndValue BoxNoneTy 1)] ++
                            [ConvertResult RefCharTy
                               (sourceFileValue sampleLoc);
                             ConvertResult (IntegerTy 32)
                               (sourceLineValue sampleLoc (IntegerTy 32))])])
                 emptyBuilder)) /\
  (exists bf callee codeActuals isQuiet,
      genStopStatement sampleConverter
        (mkStopStmt Stop None None) emptyBuilder = Done tt bf /\
      noreturnCall bf =
      Some (CallOp sampleLoc callee
              (codeActuals ++ [ConstantResult (IntegerTy 1) 0; isQuiet])) /\
      codeActuals = [ConstantResult (IntegerTy 32) 0] /\
      isQuiet = ConstantResult (IntegerTy 1) 0).
Proof.
  destruct source_position_operands
    as (_ & Hseed & _ & _ & _ & _ & _ & Hstop).
  assert (H1 : 1 = 0 \/ 1 = 1 \/ 1 = 2) by (right; left; reflexivity).
  split; [exact H1|]. split.
  - exact (Hseed sampleLoc 1 (FrontEndValue BoxNoneTy 1) emptyBuilder H1).
  - eexists.
    edestruct (Hstop sampleConverter (mkStopStmt Stop None None)
                 emptyBuilder) as (callee & acts & q & Hcall & Hc & Hq);
      [cbv; reflexivity|].
    exists callee, acts, q.
    split; [cbv; reflexivity|]. split; [exact Hcall|].
    split; [exact Hc | exact Hq].
Defined.

(** ** Lowering the same statement again *)

Lemma lastEmitted_emitOps (pre : list Op) (call : Op) (b : FirOpBuilder) :
  lastEmitted (emitOps (pre ++ [call]) b) = Some call.
Proof.
  unfold lastEmitted, emitOps. cbn [opsBefore].
  rewrite app_assoc, rev_app_distr. reflexivity.
Qed.

Ltac same_site :=
  do 3 eexists;
  split; [first [apply lastEmitted_emitOps
                | apply (lastEmitted_emitOps [])]|];
  split; [first [apply lastEmitted_emitOps
                | apply (lastEmitted_emitOps [])]|];
  split; reflexivity.

(** C9. Lowering a STOP statement under two converters and in two
    builders, in particular twice in a row and at two source locations,
    gives two calls of the same entry whose actuals have the same
    representations, provided the stop code classifies the same way both
    times. The other drivers likewise emit a call whose entry and
    representations depend neither on the builder they start from nor on
    the location or the operand values. *)
Theorem lowering_is_repeatable :
  (forall conv1 conv2 stmt b1 b2 bf1 bf2,
      genStopStatement conv1 stmt b1 = Done tt bf1 ->
      genStopStatement conv2 stmt b2 = Done tt bf2 ->
      (forall code e,
          stmtCode stmt = Some code -> GetExpr code = Some e ->
          classify (evaluated conv1 e [] b1) =
          classify (evaluated conv2 e [] b2)) ->
      sameCallSite noreturnCall bf1 bf2) /\
  (forall conv1 conv2 stmt b1 b2 bf1 bf2,
      genPauseStatement conv1 stmt b1 = Done tt bf1 ->
      genPauseStatement conv2 stmt b2 = Done tt bf2 ->
      sameCallSite lastEmitted bf1 bf2) /\
  (forall loc1 loc2 p1 p2 t1 t2 b1 b2 r1 r2 bf1 bf2,
      genAssociated loc1 p1 t1 b1 = Done r1 bf1 ->
      genAssociated loc2 p2 t2 b2 = Done r2 bf2 ->
      sameCallSite lastEmitted bf1 bf2) /\
  (forall loc1 loc2 r1 r2 d1 d2 b1 b2 bf1 bf2,
      genRandomInit loc1 r1 d1 b1 = Done tt bf1 ->
      genRandomInit loc2 r2 d2 b2 = Done tt bf2 ->
      sameCallSite lastEmitted bf1 bf2) /\
  (forall loc1 loc2 h1 h2 b1 b2 bf1 bf2,
      genRandomNumber loc1 h1 b1 = Done tt bf1 ->
      genRandomNumber loc2 h2 b2 = Done tt bf2 ->
      sameCallSite lastEmitted bf1 bf2) /\
  (forall loc1 loc2 argIndex a1 a2 b1 b2 bf1 bf2,
      genRandomSeed loc1 argIndex a1 b1 = Done tt bf1 ->
      genRandomSeed loc2 argIndex a2 b2 = Done tt bf2 ->
      sameCallSite lastEmitted bf1 bf2).
Proof.
  split; [|split; [|split; [|split; [|split]]]].
  - intros conv1 conv2 stmt b1 b2 bf1 bf2 Hrun1 Hrun2 Hclass.
    destruct (genStopStatement_Done _ _ _ _ Hrun1)
      as (callee1 & acts1 & q1 & ctx1 & s1 & Hcode1 & Hquiet1 & ->).
    destruct (genStopStatement_Done _ _ _ _ Hrun2)
      as (callee2 & acts2 & q2 & ctx2 & s2 & Hcode2 & Hquiet2 & ->).
    unfold sameCallSite. do 3 eexists.
    split; [apply noreturnCall_terminatedWith|].
    split; [apply noreturnCall_terminatedWith|].
    split; [reflexivity|]. cbn [callShape].
    assert (Hq : typeOf q1 = IntegerTy 1 /\ typeOf q2 = IntegerTy 1).
    { destruct (stmtQuiet stmt).
      - destruct Hquiet1 as (? & ? & ? & _ & ->).
        destruct Hquiet2 as (? & ? & ? & _ & ->). split; reflexivity.
      - subst q1 q2. split; reflexivity. }
    destruct Hq as [Hq1 Hq2].
    rewrite !map_app. cbn [map typeOf]. rewrite Hq1, Hq2.
    destruct (stmtCode stmt) as [code|].
    + destruct Hcode1 as (e & He & Hc1). destruct Hcode2 as (e' & He' & Hc2).
      rewrite He in He'. injection He' as <-.
      specialize (Hclass code e eq_refl He).
      destruct (evaluated conv1 e [] b1), (evaluated conv2 e [] b2);
        cbn in Hclass; try discriminate; try contradiction;
        destruct Hc1 as [-> ->]; destruct Hc2 as [-> ->]; reflexivity.
    + destruct Hcode1 as [-> ->]. destruct Hcode2 as [-> ->]. reflexivity.
  - intros conv1 conv2 stmt b1 b2 bf1 bf2.
    rewrite !genPauseStatement_run. intros H1 H2.
    done_state H1. done_state H2. same_site.
  - intros loc1 loc2 p1 p2 t1 t2 b1 b2 r1 r2 bf1 bf2.
    rewrite !genAssociated_run. intros H1 H2.
    done_state H1. done_state H2. same_site.
  - intros loc1 loc2 r1 r2 d1 d2 b1 b2 bf1 bf2.
    rewrite !genRandomInit_run. intros H1 H2.
    done_state H1. done_state H2. same_site.
  - intros loc1 loc2 h1 h2 b1 b2 bf1 bf2.
    rewrite !genRandomNumber_run. intros H1 H2.
    done_state H1. done_state H2. same_site.
  - intros loc1 loc2 argIndex a1 a2 b1 b2 bf1 bf2.
    destruct (genRandomSeed_cases argIndex)
      as [-> | [-> | [-> | [-> | (Hm & H0 & H1 & H2)]]]].
    + rewrite !genRandomSeed_run_default. intros G1 G2.
      done_state G1. done_state G2. same_site.
    + rewrite !genRandomSeed_run_size. intros G1 G2.
      done_state G1. done_state G2. same_site.
    + rewrite !genRandomSeed_run_put. intros G1 G2.
      done_state G1. done_state G2. same_site.
    + rewrite !genRandomSeed_run_get. intros G1 G2.
      done_state G1. done_state G2. same_site.
    + rewrite genRandomSeed_run_invalid by assumption. discriminate.
Qed.

Lemma lowering_is_repeatable_witness :
  let stmt := mkStopStmt ErrorStop (Some (typed 1)) None in
  let bf1 := builderOf (genStopStatement sampleConverter stmt emptyBuilder) in
  let bf2 := builderOf (genStopStatement
                          (relocated otherLoc sampleConverter) stmt bf1) in
  genStopStatement sampleConverter stmt emptyBuilder = Done tt bf1 /\
  genStopStatement (relocated otherLoc sampleConverter) stmt bf1
  = Done tt bf2 /\
  sameCallSite noreturnCall bf1 bf2.
Proof.
  intros stmt bf1 bf2.
  assert (H1 : genStopStatement sampleConverter stmt emptyBuilder
               = Done tt bf1) by (cbv; reflexivity).
  assert (H2 : genStopStatement (relocated otherLoc sampleConverter) stmt bf1
               = Done tt bf2) by (cbv; reflexivity).
  split; [exact H1|]. split; [exact H2|].
  apply (proj1 lowering_is_repeatable sampleConverter
           (relocated otherLoc sampleConverter) stmt emptyBuilder bf1
           bf1 bf2 H1 H2).
  intros code e Hcode He. cbn [stmtCode stmt] in Hcode.
  injection Hcode as <-. injection He as <-. reflexivity.
Defined.

(** ** The ASSOCIATED driver *)

(** C10. The ASSOCIATED driver converts the pointer and the target to the
    formal types of the pointer-association entry, emits exactly one call,
    to that entry with these two actuals, and returns the first result of
    the call. The drivers of the statements return no value. *)
Theorem genAssociated_returns_call_result (loc : Location)
    (pointer target : Value) (b : FirOpBuilder) :
  let actuals :=
    [ConvertResult BoxNoneTy pointer; ConvertResult BoxNoneTy target] in
  let emitted :=
    [ConvertOp loc BoxNoneTy pointer; ConvertOp loc BoxNoneTy target;
     CallOp loc (getRuntimeFunc PointerIsAssociatedWith) actuals] in
  genAssociated loc pointer target b =
  Done (CallResult (IntegerTy 1) PointerIsAssociatedWith actuals 0)
       (emitOps emitted b) /\
  length (filter isCall emitted) = 1%nat /\
  nth_error (getResults (getType (getRuntimeFunc PointerIsAssociatedWith))) 0
  = Some (IntegerTy 1) /\
  (forall conv stmt s r bf,
      genStopStatement conv stmt s = Done r bf -> r = tt) /\
  (forall conv stmt s r bf,
      genPauseStatement conv stmt s = Done r bf -> r = tt) /\
  (forall l x y s r bf, genRandomInit l x y s = Done r bf -> r = tt) /\
  (forall l x s r bf, genRandomNumber l x s = Done r bf -> r = tt) /\
  (forall l i x s r bf, genRandomSeed l i x s = Done r bf -> r = tt).
Proof.
  cbv zeta. split; [apply genAssociated_run|].
  split; [reflexivity|]. split; [reflexivity|].
  repeat split; intros; match goal with r : unit |- _ => destruct r end;
    reflexivity.
Qed.

Lemma genAssociated_returns_call_result_witness :
  genAssociated sampleLoc (FrontEndValue BoxNoneTy 1)
    (FrontEndValue (OtherTy 2) 2) emptyBuilder =
  Done (CallResult (IntegerTy 1) PointerIsAssociatedWith
          [ConvertResult BoxNoneTy (FrontEndValue BoxNoneTy 1);
           ConvertResult BoxNoneTy (FrontEndValue (OtherTy 2) 2)] 0)
       (emitOps
          [ConvertOp sampleLoc BoxNoneTy (FrontEndValue BoxNoneTy 1);
           ConvertOp sampleLoc BoxNoneTy (FrontEndValue (OtherTy 2) 2);
           CallOp sampleLoc (getRuntimeFunc PointerIsAssociatedWith)
             [ConvertResult BoxNoneTy (FrontEndValue BoxNoneTy 1);
              ConvertResult BoxNoneTy (FrontEndValue (OtherTy 2) 2)]]
          emptyBuilder) /\
  (forall r bf,
      genPauseStatement sampleConverter (mkPauseStmt None) emptyBuilder
      = Done r bf -> r = tt).
Proof.
  destruct (genAssociated_returns_call_result sampleLoc
              (FrontEndValue BoxNoneTy 1) (FrontEndValue (OtherTy 2) 2)
              emptyBuilder) as (Hrun & _ & _ & _ & Hpause & _).
  split; [exact Hrun|].
  intros r bf. apply Hpause.
Defined.

(** ** The scenarios of the specification, on the sample front end *)

Example scenario_stop_5 :
  noreturnCall
    (builderOf (genStopStatement sampleConverter
                  (mkStopStmt Stop (Some (typed 0)) None) emptyBuilder)) =
  Some (CallOp sampleLoc (getRuntimeFunc StopStatement)
          [ConvertResult (IntegerTy 32) (ConstantResult (IntegerTy 32) 5);
           ConstantResult (IntegerTy 1) 0;
           ConstantResult (IntegerTy 1) 0]).
Proof. reflexivity. Qed.

Example scenario_error_stop_text :
  genStopStatement sampleConverter
    (mkStopStmt ErrorStop (Some (typed 1)) None) emptyBuilder =
  Done tt
    (mkBuilder
       [[ForeignOp 10;
         ConstantOp sampleLoc (IntegerTy 64) 9;
         ConvertOp sampleLoc RefCharTy (FrontEndValue (OtherTy 0) 10);
         ConvertOp sampleLoc (IntegerTy 64) (ConstantResult (IntegerTy 64) 9);
         ConstantOp sampleLoc (IntegerTy 1) 1;
         ConstantOp sampleLoc (IntegerTy 1) 0;
         CallOp sampleLoc (getRuntimeFunc StopStatementText)
           [ConvertResult RefCharTy (FrontEndValue (OtherTy 0) 10);
            ConvertResult (IntegerTy 64) (ConstantResult (IntegerTy 64) 9);
            ConstantResult (IntegerTy 1) 1;
            ConstantResult (IntegerTy 1) 0];
         UnreachableOp sampleLoc]]
       [ForeignOp 11] [] []).
Proof. reflexivity. Qed.

Example scenario_stop_quiet :
  noreturnCall
    (builderOf (genStopStatement sampleConverter
                  (mkStopStmt Stop (Some (typed 0)) (Some (typed 2)))
                  emptyBuilder)) =
  Some (CallOp sampleLoc (getRuntimeFunc StopStatement)
          [ConvertResult (IntegerTy 32) (ConstantResult (IntegerTy 32) 5);
           ConstantResult (IntegerTy 1) 0;
           ConvertResult (IntegerTy 1) (ConstantResult (OtherTy 4) 1)]).
Proof. reflexivity. Qed.

Example scenario_random_seed_size :
  genRandomSeed sampleLoc 0 (FrontEndValue BoxNoneTy 3) emptyBuilder =
  Done tt
    (mkBuilder []
       [AddressOfOp sampleLoc "stop.f90"%string;
        ConstantOp sampleLoc (IntegerTy 32) 7;
        ConvertOp sampleLoc BoxNoneTy (FrontEndValue BoxNoneTy 3);
        ConvertOp sampleLoc RefCharTy (StringLitAddr "stop.f90"%string);
        ConvertOp sampleLoc (IntegerTy 32) (ConstantResult (IntegerTy 32) 7);
        CallOp sampleLoc (getRuntimeFunc RandomSeedSize)
          [ConvertResult BoxNoneTy (FrontEndValue BoxNoneTy 3);
           ConvertResult RefCharTy (StringLitAddr "stop.f90"%string);
           ConvertResult (IntegerTy 32) (ConstantResult (IntegerTy 32) 7)]]
       [] []).
Proof. reflexivity. Qed.

Example scenario_null_quiet :
  genStopStatement sampleConverter
    (mkStopStmt Stop None (Some (mkExpr None))) emptyBuilder =
  Halted (AssertionFailure "failed getting typed expression"%string)
         (emitOps [ConstantOp sampleLoc (IntegerTy 32) 0;
                   ConstantOp sampleLoc (IntegerTy 1) 0] emptyBuilder).
Proof. reflexivity. Qed.

(** * Further properties of the drivers *)

(** ** The terminator handler keeps every operation *)

(** X1. The terminator handler never fails. It adds exactly one block to
    the region and exactly one operation, the terminator, at the insertion
    point; every other operation of the region is kept, in the same order.
    The new block is made of the operations that followed the insertion
    point, and the insertion point is in front of them. *)
Theorem genUnreachable_conserves_operations (loc : Location)
    (b : FirOpBuilder) :
  exists bf,
    genUnreachable loc b = Done tt bf /\
    concat (region bf) =
    concat (blocksBefore b) ++ opsBefore b ++
    UnreachableOp loc :: opsAfter b ++ concat (blocksAfter b) /\
    length (region bf) = S (length (region b)) /\
    opsBefore bf = [] /\ opsAfter bf = opsAfter b /\
    blocksAfter bf = blocksAfter b.
Proof.
  rewrite genUnreachable_run. eexists. split; [reflexivity|].
  unfold region. cbn [blocksBefore opsBefore opsAfter blocksAfter].
  repeat split.
  - rewrite <- app_assoc. cbn [app].
    rewrite !concat_app. cbn [concat app].
    rewrite <- !app_assoc. reflexivity.
  - rewrite !length_app. cbn [length]. lia.
Qed.

(** ** When the STOP driver completes *)

(** X2. For a statement whose stop code, if written, has a typed
    expression, and with assertions enabled, the STOP driver lowers the
    statement to the end exactly when the stop code, if written, evaluates
    to a character or scalar value and the quiet expression, if written,
    has a typed expression. In particular the index [operands.size()] used
    to read the formal types of the callee is always in range, and the
    handler always finds the block it has split off. *)
Theorem genStopStatement_completes_iff (conv : AbstractConverter)
    (stmt : StopStmt) (b : FirOpBuilder) :
  (forall code, stmtCode stmt = Some code -> GetExpr code <> None) ->
  ((exists bf, genStopStatement conv stmt b = Done tt bf) <->
   lowerable conv stmt b).
Proof.
  intros _.
  split; [|apply genStopStatement_completes].
  intros [bf Hrun].
  destruct (genStopStatement_Done _ _ _ _ Hrun)
    as (callee & acts & isQuiet & ctx & b2 & Hcode & Hquiet & _).
  split.
  - destruct (stmtCode stmt) as [code|]; [|exact I].
    destruct Hcode as (e & He & Hc). exists e. split; [exact He|].
    destruct (evaluated conv e [] b); cbn; [discriminate | discriminate|].
    contradiction.
  - destruct (stmtQuiet stmt) as [quiet|]; [|exact I].
    destruct Hquiet as (e & _ & _ & He & _). rewrite He. discriminate.
Qed.

Lemma genStopStatement_completes_iff_witness :
  let stmt := mkStopStmt Stop (Some (typed 3)) (Some (typed 2)) in
  (forall code, stmtCode stmt = Some code -> GetExpr code <> None) /\
  ((exists bf, genStopStatement sampleConverter stmt emptyBuilder
               = Done tt bf) <->
   lowerable sampleConverter stmt emptyBuilder) /\
  ~ lowerable sampleConverter stmt emptyBuilder.
Proof.
  intros stmt.
  assert (Hcode : forall code,
             stmtCode stmt = Some code -> GetExpr code <> None)
    by (intros code H; injection H as <-; discriminate).
  split; [exact Hcode|].
  split; [exact (genStopStatement_completes_iff sampleConverter stmt
                   emptyBuilder Hcode)|].
  intros [(e & He & Hc) _]. injection He as <-. apply Hc. reflexivity.
Defined.

(** ** Order of evaluation in the STOP driver *)

(** X3. With both operands written, the STOP driver evaluates the stop
    code first, in an empty statement context; it then evaluates the quiet
    expression in the context the stop code left and in the builder that
    already holds the conversions of the code and the isError constant.
    The quiet value is not classified: the base of any variant is
    converted. The clean-up registered by both evaluations is emitted only
    behind the terminator, in the new block. *)
Theorem genStopStatement_evaluation_order (conv : AbstractConverter)
    (k : Kind) (code quiet : Expr) (e qe : SomeExpr) (b : FirOpBuilder) :
  GetExpr code = Some e ->
  GetExpr quiet = Some qe ->
  let loc := getCurrentLocation conv in
  let stmt := mkStopStmt k (Some code) (Some quiet) in
  let isError := Z.b2z (Kind_eqb k ErrorStop) in
  (forall x ctx1 b1 qv ctx2 b2,
      genExprValue conv e [] b = (UnboxedValue x, ctx1, b1) ->
      genExprValue conv qe ctx1
        (emitOps [ConvertOp loc (IntegerTy 32) x;
                  ConstantOp loc (IntegerTy 1) isError] b1)
      = (qv, ctx2, b2) ->
      genStopStatement conv stmt b =
      Done tt
        (terminatedWith
           (CallOp loc (getRuntimeFunc StopStatement)
              [ConvertResult (IntegerTy 32) x;
               ConstantResult (IntegerTy 1) isError;
               ConvertResult (IntegerTy 1) (getBase qv)])
           loc ctx2
           (emitOps [ConvertOp loc (IntegerTy 1) (getBase qv)] b2))) /\
  (forall addr len ctx1 b1 qv ctx2 b2,
      genExprValue conv e [] b = (CharBoxValue addr len, ctx1, b1) ->
      genExprValue conv qe ctx1
        (emitOps [ConvertOp loc RefCharTy addr;
                  ConvertOp loc (IntegerTy 64) len;
                  ConstantOp loc (IntegerTy 1) isError] b1)
      = (qv, ctx2, b2) ->
      genStopStatement conv stmt b =
      Done tt
        (terminatedWith
           (CallOp loc (getRuntimeFunc StopStatementText)
              [ConvertResult RefCharTy addr;
               ConvertResult (IntegerTy 64) len;
               ConstantResult (IntegerTy 1) isError;
               ConvertResult (IntegerTy 1) (getBase qv)])
           loc ctx2
           (emitOps [ConvertOp loc (IntegerTy 1) (getBase qv)] b2))).
Proof.
  intros He Hqe loc stmt isError.
  destruct code as [te]. destruct quiet as [tq].
  unfold GetExpr in He, Hqe. cbn in He, Hqe. subst te tq.
  split.
  - intros x ctx1 b1 qv ctx2 b2 E1 E2.
    unfold genStopStatement, evalExpr, GetExpr.
    cbn [stmt stmtKind stmtCode stmtQuiet typedExpr].
    cbn -[emitOps]. rewrite E1. cbn -[emitOps].
    rewrite !emitOps_emitOps. cbn [app].
    fold loc. fold isError. rewrite E2. cbn -[emitOps].
    apply terminate_run.
  - intros addr len ctx1 b1 qv ctx2 b2 E1 E2.
    unfold genStopStatement, evalExpr, GetExpr.
    cbn [stmt stmtKind stmtCode stmtQuiet typedExpr].
    cbn -[emitOps]. rewrite E1. cbn -[emitOps].
    rewrite !emitOps_emitOps. cbn [app].
    fold loc. fold isError. rewrite E2. cbn -[emitOps].
    apply terminate_run.
Qed.

Lemma genStopStatement_evaluation_order_witness :
  let b1 := emitOps [ConstantOp sampleLoc (IntegerTy 32) 5] emptyBuilder in
  let b2 :=
    emitOps [ForeignOp 20]
      (emitOps [ConvertOp sampleLoc (IntegerTy 32)
                  (ConstantResult (IntegerTy 32) 5);
                ConstantOp sampleLoc (IntegerTy 1) 0] b1) in
  GetExpr (typed 0) = Some (mkSomeExpr 0) /\
  GetExpr (typed 3) = Some (mkSomeExpr 3) /\
  genStopStatement sampleConverter
    (mkStopStmt Stop (Some (typed 0)) (Some (typed 3))) emptyBuilder =
  Done tt
    (terminatedWith
       (CallOp sampleLoc (getRuntimeFunc StopStatement)
          [ConvertResult (IntegerTy 32) (ConstantResult (IntegerTy 32) 5);
           ConstantResult (IntegerTy 1) 0;
           ConvertResult (IntegerTy 1) (FrontEndValue (OtherTy 1) 20)])
       sampleLoc []
       (emitOps [ConvertOp sampleLoc (IntegerTy 1)
                   (FrontEndValue (OtherTy 1) 20)] b2)).
Proof.
  intros b1 b2.
  split; [reflexivity|]. split; [reflexivity|].
  apply (proj1 (genStopStatement_evaluation_order sampleConverter Stop
                  (typed 0) (typed 3) (mkSomeExpr 0) (mkSomeExpr 3)
                  emptyBuilder eq_refl eq_refl)
           (ConstantResult (IntegerTy 32) 5) [] b1
           (OtherBoxValue (FrontEndValue (OtherTy 1) 20)) [] b2);
    reflexivity.
Defined.

(** ** A quiet expression without typed expression *)

(** X4. When the quiet expression is written but semantic analysis left
    it without typed expression, and the stop code is absent or evaluates
    to a scalar or character value, the STOP driver stops on its assertion
    (assertions enabled). By then it has emitted the operations for the
    stop code and the isError constant, and nothing else: no call and no
    terminator, and the quiet expression is not evaluated. When the stop
    code evaluates to an unsupported variant, the driver stops earlier, on
    the diagnostic for the stop code, and the assertion is not reached. *)
Theorem genStopStatement_null_quiet (conv : AbstractConverter) (k : Kind)
    (quiet : Expr) (b : FirOpBuilder) :
  GetExpr quiet = None ->
  let loc := getCurrentLocation conv in
  let isError := Z.b2z (Kind_eqb k ErrorStop) in
  let failed :=
    AssertionFailure "failed getting typed expression"%string in
  genStopStatement conv (mkStopStmt k None (Some quiet)) b =
  Halted failed
    (emitOps [ConstantOp loc (IntegerTy 32) 0;
              ConstantOp loc (IntegerTy 1) isError] b) /\
  (forall code e x ctx1 b1,
      GetExpr code = Some e ->
      genExprValue conv e [] b = (UnboxedValue x, ctx1, b1) ->
      genStopStatement conv (mkStopStmt k (Some code) (Some quiet)) b =
      Halted failed
        (emitOps [ConvertOp loc (IntegerTy 32) x;
                  ConstantOp loc (IntegerTy 1) isError] b1)) /\
  (forall code e addr len ctx1 b1,
      GetExpr code = Some e ->
      genExprValue conv e [] b = (CharBoxValue addr len, ctx1, b1) ->
      genStopStatement conv (mkStopStmt k (Some code) (Some quiet)) b =
      Halted failed
        (emitOps [ConvertOp loc RefCharTy addr;
                  ConvertOp loc (IntegerTy 64) len;
                  ConstantOp loc (IntegerTy 1) isError] b1)) /\
  (forall code e base ctx1 b1,
      GetExpr code = Some e ->
      genExprValue conv e [] b = (OtherBoxValue base, ctx1, b1) ->
      genStopStatement conv (mkStopStmt k (Some code) (Some quiet)) b =
      Halted (Diagnostic loc "unhandled expression in STOP"%string) b1).
Proof.
  intros Hq loc isError failed.
  destruct quiet as [tq]. unfold GetExpr in Hq. cbn in Hq. subst tq.
  split; [|split; [|split]].
  - unfold genStopStatement, GetExpr.
    cbn [stmtKind stmtCode stmtQuiet typedExpr].
    cbn -[emitOps]. rewrite !emitOps_emitOps. reflexivity.
  - intros [te] e x ctx1 b1 He E1.
    unfold GetExpr in He. cbn in He. subst te.
    unfold genStopStatement, evalExpr, GetExpr.
    cbn [stmtKind stmtCode stmtQuiet typedExpr].
    cbn -[emitOps]. rewrite E1. cbn -[emitOps].
    rewrite !emitOps_emitOps. reflexivity.
  - intros [te] e addr len ctx1 b1 He E1.
    unfold GetExpr in He. cbn in He. subst te.
    unfold genStopStatement, evalExpr, GetExpr.
    cbn [stmtKind stmtCode stmtQuiet typedExpr].
    cbn -[emitOps]. rewrite E1. cbn -[emitOps].
    rewrite !emitOps_emitOps. reflexivity.
  - intros [te] e base ctx1 b1 He E1.
    unfold GetExpr in He. cbn in He. subst te.
    unfold genStopStatement, evalExpr, GetExpr.
    cbn [stmtKind stmtCode stmtQuiet typedExpr].
    cbn -[emitOps]. rewrite E1. reflexivity.
Qed.

Lemma genStopStatement_null_quiet_witness :
  GetExpr (mkExpr None) = None /\
  genStopStatement sampleConverter
    (mkStopStmt ErrorStop None (Some (mkExpr None))) emptyBuilder =
  Halted (AssertionFailure "failed getting typed expression"%string)
    (emitOps [ConstantOp sampleLoc (IntegerTy 32) 0;
              ConstantOp sampleLoc (IntegerTy 1) 1] emptyBuilder).
Proof.
  split; [reflexivity|].
  exact (proj1 (genStopStatement_null_quiet sampleConverter ErrorStop
                  (mkExpr None) emptyBuilder eq_refl)).
Defined.

(** ** Statements in sequence *)

(** A STOP statement with a stop code and no quiet expression, lowered
    by a front end whose evaluation of the code only appends [ops]. *)
Lemma stop_with_code_run (conv : AbstractConverter) (k : Kind)
    (code : Expr) (e : SomeExpr) (b : FirOpBuilder) (ev : ExtendedValue)
    (ctx : StatementContext) (ops : list Op) :
  GetExpr code = Some e ->
  classify ev <> Unsupported ->
  genExprValue conv e [] b = (ev, ctx, emitOps ops b) ->
  let loc := getCurrentLocation conv in
  genStopStatement conv (mkStopStmt k (Some code) None) b =
  Done tt
    (mkBuilder
       (blocksBefore b ++
        [opsBefore b ++ ops ++ stopOps loc k ev ++
         [stopCall loc k ev; UnreachableOp loc]])
       ctx (opsAfter b) (blocksAfter b)).
Proof.
  intros He Hev E loc. destruct code as [te].
  unfold GetExpr in He. cbn in He. subst te.
  unfold genStopStatement, evalExpr, GetExpr.
  cbn [stmtKind stmtCode stmtQuiet typedExpr].
  cbn -[emitOps]. rewrite E.
  destruct ev as [addr len|x|base]; [| |exfalso; apply Hev; reflexivity];
    cbn -[emitOps]; rewrite terminate_run, !emitOps_emitOps;
    unfold terminatedWith, emitOps, stopOps, stopCall;
    cbn [blocksBefore opsBefore opsAfter blocksAfter codeOps codeActuals
         codeEntry app];
    rewrite <- !app_assoc; reflexivity.
Qed.

(** X5. Two STOP statements with a stop code and no quiet expression,
    lowered one after the other by front ends whose evaluations only
    append, leave two closed blocks. The first is the block that was
    current, extended by the evaluation of the first code, the conversions
    and flag constants of the first statement, its call and its
    terminator. The second is the block split off by the first statement:
    it starts with the clean-up the first evaluation registered, which is
    followed by the evaluation of the second code, the operations of the
    second statement, its call and its terminator. The insertion point
    ends up in a third block, behind the clean-up of the second statement
    and in front of the operations that followed the insertion point at
    the start; the blocks around are kept. *)
Theorem two_stops_in_a_row (conv1 conv2 : AbstractConverter)
    (k1 k2 : Kind) (c1 c2 : Expr) (e1 e2 : SomeExpr) (b : FirOpBuilder)
    (ev1 ev2 : ExtendedValue) (ctx1 ctx2 : StatementContext)
    (ops1 ops2 : list Op) :
  GetExpr c1 = Some e1 -> GetExpr c2 = Some e2 ->
  classify ev1 <> Unsupported -> classify ev2 <> Unsupported ->
  let loc1 := getCurrentLocation conv1 in
  let loc2 := getCurrentLocation conv2 in
  let first :=
    opsBefore b ++ ops1 ++ stopOps loc1 k1 ev1 ++
    [stopCall loc1 k1 ev1; UnreachableOp loc1] in
  let second :=
    ctx1 ++ ops2 ++ stopOps loc2 k2 ev2 ++
    [stopCall loc2 k2 ev2; UnreachableOp loc2] in
  let bf1 :=
    mkBuilder (blocksBefore b ++ [first]) ctx1 (opsAfter b)
              (blocksAfter b) in
  genExprValue conv1 e1 [] b = (ev1, ctx1, emitOps ops1 b) ->
  genExprValue conv2 e2 [] bf1 = (ev2, ctx2, emitOps ops2 bf1) ->
  genStopStatement conv1 (mkStopStmt k1 (Some c1) None) b = Done tt bf1 /\
  genStopStatement conv2 (mkStopStmt k2 (Some c2) None) bf1 =
  Done tt
    (mkBuilder (blocksBefore b ++ [first; second]) ctx2 (opsAfter b)
               (blocksAfter b)).
Proof.
  intros He1 He2 Hev1 Hev2 loc1 loc2 first second bf1 E1 E2.
  split.
  - exact (stop_with_code_run conv1 k1 c1 e1 b ev1 ctx1 ops1 He1 Hev1 E1).
  - rewrite (stop_with_code_run conv2 k2 c2 e2 bf1 ev2 ctx2 ops2
               He2 Hev2 E2).
    unfold bf1. cbn [blocksBefore opsBefore opsAfter blocksAfter].
    rewrite <- app_assoc. reflexivity.
Qed.

Lemma two_stops_in_a_row_witness :
  let text := CharBoxValue (FrontEndValue (OtherTy 0) 10)
                           (ConstantResult (IntegerTy 64) 9) in
  let five := UnboxedValue (ConstantResult (IntegerTy 32) 5) in
  let first :=
    [ForeignOp 10; ConstantOp sampleLoc (IntegerTy 64) 9] ++
    stopOps sampleLoc ErrorStop text ++
    [stopCall sampleLoc ErrorStop text; UnreachableOp sampleLoc] in
  let second :=
    [ForeignOp 11] ++ [ConstantOp sampleLoc (IntegerTy 32) 5] ++
    stopOps otherLoc Stop five ++
    [stopCall otherLoc Stop five; UnreachableOp otherLoc] in
  let bf1 := mkBuilder [first] [ForeignOp 11] [] [] in
  genStopStatement sampleConverter
    (mkStopStmt ErrorStop (Some (typed 1)) None) emptyBuilder
  = Done tt bf1 /\
  genStopStatement (relocated otherLoc sampleConverter)
    (mkStopStmt Stop (Some (typed 0)) None) bf1
  = Done tt (mkBuilder [first; second] [] [] []).
Proof.
  intros text five first second bf1.
  apply (two_stops_in_a_row sampleConverter
           (relocated otherLoc sampleConverter) ErrorStop Stop
           (typed 1) (typed 0) (mkSomeExpr 1) (mkSomeExpr 0) emptyBuilder
           text five [ForeignOp 11] []
           [ForeignOp 10; ConstantOp sampleLoc (IntegerTy 64) 9]
           [ConstantOp sampleLoc (IntegerTy 32) 5]);
    try reflexivity; discriminate.
Defined.

Lemma noreturnCall_emitOps (ops : list Op) (b : FirOpBuilder) :
  noreturnCall (emitOps ops b) = noreturnCall b.
Proof. reflexivity. Qed.

(** X6. Whatever is lowered after a STOP statement cannot come between
    the call of the STOP and its terminator: after any run of the PAUSE,
    ASSOCIATED, RANDOM_INIT, RANDOM_NUMBER or RANDOM_SEED driver (also one
    that stops on an invalid index), the block closed by the STOP still
    ends with that call and the terminator, and the closed blocks are the
    same. *)
Theorem terminated_block_survives (conv : AbstractConverter)
    (stmt : StopStmt) (b bf : FirOpBuilder) :
  genStopStatement conv stmt b = Done tt bf ->
  exists call,
    isCall call = true /\ noreturnCall bf = Some call /\
    forall later,
      (exists conv' p, later = builderOf (genPauseStatement conv' p bf)) \/
      (exists l x y, later = builderOf (genAssociated l x y bf)) \/
      (exists l x y, later = builderOf (genRandomInit l x y bf)) \/
      (exists l x, later = builderOf (genRandomNumber l x bf)) \/
      (exists l i x, later = builderOf (genRandomSeed l i x bf)) ->
      noreturnCall later = Some call /\
      blocksBefore later = blocksBefore bf.
Proof.
  intros Hrun.
  destruct (genStopStatement_Done _ _ _ _ Hrun)
    as (callee & acts & isQuiet & ctx & b2 & _ & _ & Hbf).
  eexists. split; [|split; [rewrite Hbf; apply noreturnCall_terminatedWith|]].
  { reflexivity. }
  rewrite <- (noreturnCall_terminatedWith _ (getCurrentLocation conv) ctx b2).
  rewrite <- Hbf. clear Hbf Hrun.
  intros later
    [(c & p & ->) | [(l & x & y & ->) | [(l & x & y & ->)
     | [(l & x & ->) | (l & i & x & ->)]]]].
  - rewrite genPauseStatement_run. split; reflexivity.
  - rewrite genAssociated_run. split; reflexivity.
  - rewrite genRandomInit_run. split; reflexivity.
  - rewrite genRandomNumber_run. split; reflexivity.
  - destruct (genRandomSeed_cases i)
      as [-> | [-> | [-> | [-> | (Hm & H0 & H1 & H2)]]]].
    + rewrite genRandomSeed_run_default. split; reflexivity.
    + rewrite genRandomSeed_run_size. split; reflexivity.
    + rewrite genRandomSeed_run_put. split; reflexivity.
    + rewrite genRandomSeed_run_get. split; reflexivity.
    + rewrite genRandomSeed_run_invalid by assumption. split; reflexivity.
Qed.

Lemma terminated_block_survives_witness :
  let bf := builderOf (genStopStatement sampleConverter
                         (mkStopStmt Stop (Some (typed 1)) None)
                         emptyBuilder) in
  exists call,
    isCall call = true /\ noreturnCall bf = Some call /\
    forall later,
      (exists conv' p, later = builderOf (genPauseStatement conv' p bf)) \/
      (exists l x y, later = builderOf (genAssociated l x y bf)) \/
      (exists l x y, later = builderOf (genRandomInit l x y bf)) \/
      (exists l x, later = builderOf (genRandomNumber l x bf)) \/
      (exists l i x, later = builderOf (genRandomSeed l i x bf)) ->
      noreturnCall later = Some call /\
      blocksBefore later = blocksBefore bf.
Proof.
  intros bf.
  apply (terminated_block_survives sampleConverter
           (mkStopStmt Stop (Some (typed 1)) None) emptyBuilder bf).
  cbv; reflexivity.
Defined.

(** ** One call for each statement *)

Ltac one_call :=
  eexists; split; [reflexivity|];
  do 2 eexists; split; [reflexivity|]; split; reflexivity.

(** X7. A completed run of the PAUSE, ASSOCIATED, RANDOM_INIT,
    RANDOM_NUMBER or RANDOM_SEED driver adds operations at the insertion
    point of which exactly one is a call, and that call is the last
    operation added. *)
Theorem drivers_emit_one_call :
  (forall conv stmt b bf,
      genPauseStatement conv stmt b = Done tt bf ->
      exists ops, bf = emitOps ops b /\ endsWithItsOnlyCall ops) /\
  (forall loc pointer target b r bf,
      genAssociated loc pointer target b = Done r bf ->
      exists ops, bf = emitOps ops b /\ endsWithItsOnlyCall ops) /\
  (forall loc repeatable imageDistinct b bf,
      genRandomInit loc repeatable imageDistinct b = Done tt bf ->
      exists ops, bf = emitOps ops b /\ endsWithItsOnlyCall ops) /\
  (forall loc harvest b bf,
      genRandomNumber loc harvest b = Done tt bf ->
      exists ops, bf = emitOps ops b /\ endsWithItsOnlyCall ops) /\
  (forall loc argIndex argBox b bf,
      genRandomSeed loc argIndex argBox b = Done tt bf ->
      exists ops, bf = emitOps ops b /\ endsWithItsOnlyCall ops).
Proof.
  split; [|split; [|split; [|split]]].
  - intros conv stmt b bf. rewrite genPauseStatement_run.
    intros H; done_state H.
    eexists; split; [reflexivity|].
    exists (@nil Op); eexists; split; [reflexivity|]; split; reflexivity.
  - intros loc pointer target b r bf. rewrite genAssociated_run.
    intros H; done_state H. one_call.
  - intros loc repeatable imageDistinct b bf. rewrite genRandomInit_run.
    intros H; done_state H. one_call.
  - intros loc harvest b bf. rewrite genRandomNumber_run.
    intros H; done_state H. one_call.
  - intros loc argIndex argBox b bf.
    destruct (genRandomSeed_cases argIndex)
      as [-> | [-> | [-> | [-> | (Hm & H0 & H1 & H2)]]]].
    + rewrite genRandomSeed_run_default. intros H; done_state H.
      eexists; split; [reflexivity|].
      exists (@nil Op); eexists; split; [reflexivity|]; split; reflexivity.
    + rewrite genRandomSeed_run_size. intros H; done_state H. one_call.
    + rewrite genRandomSeed_run_put. intros H; done_state H. one_call.
    + rewrite genRandomSeed_run_get. intros H; done_state H. one_call.
    + rewrite genRandomSeed_run_invalid by assumption. discriminate.
Qed.

Lemma drivers_emit_one_call_witness :
  (exists bf ops,
      genRandomSeed sampleLoc 2 (FrontEndValue BoxNoneTy 1) emptyBuilder
      = Done tt bf /\
      bf = emitOps ops emptyBuilder /\ endsWithItsOnlyCall ops) /\
  (exists bf ops,
      genRandomNumber sampleLoc (FrontEndValue (OtherTy 3) 1) emptyBuilder
      = Done tt bf /\
      bf = emitOps ops emptyBuilder /\ endsWithItsOnlyCall ops).
Proof.
  destruct drivers_emit_one_call as (_ & _ & _ & Hnumber & Hseed).
  split.
  - edestruct (Hseed sampleLoc 2 (FrontEndValue BoxNoneTy 1) emptyBuilder)
      as (ops & Hbf & Hops); [cbv; reflexivity|].
    eexists. exists ops. split; [cbv; reflexivity|].
    split; [exact Hbf | exact Hops].
  - edestruct (Hnumber sampleLoc (FrontEndValue (OtherTy 3) 1) emptyBuilder)
      as (ops & Hbf & Hops); [cbv; reflexivity|].
    eexists. exists ops. split; [cbv; reflexivity|].
    split; [exact Hbf | exact Hops].
Defined.
